(** * AI-Task-Tracker: the tracking loop, the activity store, the
      classification client and the topic normaliser

    A shallow embedding of [main.py], [data_storage.py], [image_analysis.py]
    and [topic_normalizer.py].  Python values are a small inductive type,
    text is ASCII [string], a call into the platform (screen capture, the
    remote model) is an outcome supplied by the environment, and the CSV
    file is the list of its non-blank lines after tokenising. *)

From Stdlib Require Import String Ascii List ZArith Bool Arith Lia DecimalString.
Import ListNotations.
Set Warnings "-register-all".
Local Open Scope list_scope.
Local Open Scope string_scope.

(** ** Python values *)

(** The values the code handles: what [json.loads] builds (floats apart),
    [None], and the arguments of [normalize_topic].  A dict keeps its keys
    in insertion order. *)
Inductive pyval : Type :=
| PNone
| PBool (b : bool)
| PInt (z : Z)
| PStr (s : string)
| PList (l : list pyval)
| PDict (d : list (string * pyval)).

(** The result of a call: a value, or an [Exception] with its [str(e)]. *)
Inductive outcome (A : Type) : Type :=
| Returns (a : A)
| Raises (e : string).
Arguments Returns {A} a.
Arguments Raises {A} e.

(** [bool(v)] *)
Definition py_truthy (v : pyval) : bool :=
  match v with
  | PNone => false
  | PBool b => b
  | PInt z => negb (z =? 0)%Z
  | PStr s => negb (s =? "")
  | PList l => match l with [] => false | _ => true end
  | PDict d => match d with [] => false | _ => true end
  end.

(** [type(v).__name__] *)
Definition py_type_name (v : pyval) : string :=
  match v with
  | PNone => "NoneType"
  | PBool _ => "bool"
  | PInt _ => "int"
  | PStr _ => "str"
  | PList _ => "list"
  | PDict _ => "dict"
  end.

(** [isinstance(v, str)] *)
Definition is_str (v : pyval) : bool :=
  match v with PStr _ => true | _ => false end.

(** [needle in s] on text: some suffix of [s] starts with [needle]. *)
Fixpoint str_contains (needle s : string) : bool :=
  String.prefix needle s ||
  match s with
  | EmptyString => false
  | String _ rest => str_contains needle rest
  end.

(** Lookup in a dict. *)
Fixpoint dict_lookup (k : string) (d : list (string * pyval)) : option pyval :=
  match d with
  | [] => None
  | (k', v) :: rest => if k' =? k then Some v else dict_lookup k rest
  end.

(** [d[k] = v]: replaces the value of an existing key in place, appends a
    new key. *)
Fixpoint dict_set (k : string) (v : pyval) (d : list (string * pyval))
  : list (string * pyval) :=
  match d with
  | [] => [(k, v)]
  | (k', v') :: rest =>
      if k' =? k then (k', v) :: rest else (k', v') :: dict_set k v rest
  end.

Definition is_PStr_of (k : string) (v : pyval) : bool :=
  match v with PStr s => s =? k | _ => false end.

(** [k in v] for a text key [k]: key membership on a dict, element
    membership on a list, substring on text, [TypeError] elsewhere. *)
Definition py_contains (k : string) (v : pyval) : outcome bool :=
  match v with
  | PDict d => Returns (match dict_lookup k d with Some _ => true | None => false end)
  | PList l => Returns (existsb (is_PStr_of k) l)
  | PStr s => Returns (str_contains k s)
  | _ => Raises ("argument of type '" ++ py_type_name v ++ "' is not iterable")
  end.

(** [v.get(k, default)]: only a dict has the method. *)
Definition py_get (v : pyval) (k : string) (default : pyval) : outcome pyval :=
  match v with
  | PDict d => Returns (match dict_lookup k d with Some x => x | None => default end)
  | _ => Raises ("'" ++ py_type_name v ++ "' object has no attribute 'get'")
  end.

(** [v == "text"] *)
Definition py_eq_str (v : pyval) (s : string) : bool := is_PStr_of s v.

(** ** Text helpers *)

Definition ascii_in (chars : string) (c : ascii) : bool :=
  existsb (Ascii.eqb c) (list_ascii_of_string chars).

Fixpoint lstrip_by (p : ascii -> bool) (s : string) : string :=
  match s with
  | EmptyString => EmptyString
  | String c rest => if p c then lstrip_by p rest else s
  end.

Fixpoint rstrip_by (p : ascii -> bool) (s : string) : string :=
  match s with
  | EmptyString => EmptyString
  | String c rest =>
      match rstrip_by p rest with
      | EmptyString => if p c then EmptyString else String c EmptyString
      | kept => String c kept
      end
  end.

(** [s.strip(chars)]: drops from both ends every character that occurs in
    [chars]; [chars] is a set of characters, not a prefix. *)
Definition py_strip_chars (chars s : string) : string :=
  rstrip_by (ascii_in chars) (lstrip_by (ascii_in chars) s).

(** ASCII white space as [str.isspace] sees it: 9 to 13, 28 to 32. *)
Definition py_isspace (c : ascii) : bool :=
  let n := nat_of_ascii c in
  ((9 <=? n) && (n <=? 13) || (28 <=? n) && (n <=? 32))%nat.

(** [s.strip()] *)
Definition py_strip (s : string) : string :=
  rstrip_by py_isspace (lstrip_by py_isspace s).

(** [os.path.basename] (posixpath): what follows the last slash. *)
Fixpoint basename (p : string) : string :=
  match p with
  | EmptyString => EmptyString
  | String c rest =>
      if str_contains "/" rest then basename rest
      else if Ascii.eqb c "/" then rest else p
  end.

Definition LF : string := String (ascii_of_nat 10) EmptyString.

(** ** image_analysis.py: the classification client *)

(** [json.loads] belongs to Python's library: the decoder is a parameter,
    [None] standing for [json.JSONDecodeError]. *)
Class JsonLib : Type := {
  json_loads : string -> option pyval
}.

Module ImageAnalysis.
Section Client.
Context {J : JsonLib}.

Definition REQUIRED_KEYS : list string :=
  ["crisp_description"; "main_topic"; "short_description"].

(** Lines 129-132: "Clean potential markdown code fences". *)
Definition clean_fences (analysis_content : string) : string :=
  if String.prefix "```json" analysis_content
  then py_strip (py_strip_chars "```json" analysis_content)
  else if String.prefix "```" analysis_content
  then py_strip (py_strip_chars "```" analysis_content)
  else analysis_content.

(** [all(k in analysis_json for k in keys)], left to right, stopping at
    the first missing key; [in] raises on a value that is no container. *)
Fixpoint all_keys_in (keys : list string) (analysis_json : pyval) : outcome bool :=
  match keys with
  | [] => Returns true
  | k :: rest =>
      match py_contains k analysis_json with
      | Raises e => Raises e
      | Returns false => Returns false
      | Returns true => all_keys_in rest analysis_json
      end
  end.

Definition error_dict (kind raw_content : string) : pyval :=
  PDict [("error", PStr kind); ("raw_content", PStr raw_content)].

(** Lines 127-146, from the response text on.  The inner handler catches
    [JSONDecodeError] only; any other exception reaches the outer handler
    of line 148, which returns [None]. *)
Definition parse_response (analysis_content : string) : pyval :=
  let analysis_content := clean_fences analysis_content in
  match json_loads analysis_content with
  | Some analysis_json =>
      match all_keys_in REQUIRED_KEYS analysis_json with
      | Returns true => analysis_json
      | Returns false => error_dict "Invalid JSON structure" analysis_content
      | Raises _ => PNone
      end
  | None => error_dict "JSONDecodeError" analysis_content
  end.

(** [analyze_screenshot(image_path)].  [client] tells whether the module
    client was initialised, [base64_image] is what
    [encode_image_to_base64] returned, [response] is the outcome of the
    request: its [message.content] (which may be [None]) or an exception. *)
Definition analyze_screenshot (client : bool) (base64_image : option string)
    (response : outcome (option string)) : pyval :=
  if negb client then PNone
  else match base64_image with
       | None => PNone
       | Some b64 =>
           if b64 =? "" then PNone
           else match response with
                | Raises _ => PNone
                | Returns None => PNone
                | Returns (Some analysis_content) => parse_response analysis_content
                end
       end.

(** The text neither starts nor ends with a character of [chars]. *)
Definition starts_clear (chars body : string) : Prop :=
  lstrip_by (ascii_in chars) body = body.

Definition ends_clear (chars body : string) : Prop :=
  rstrip_by (ascii_in chars) body = body.

(** Two results of [analyze_screenshot] of the same class: the same value,
    or two error results of the same kind. *)
Definition same_classification (a b : pyval) : Prop :=
  a = b
  \/ exists kind raw raw', a = error_dict kind raw /\ b = error_dict kind raw'.

End Client.
End ImageAnalysis.

(** ** Python's [str()] of a value *)

Definition Z_to_string (z : Z) : string :=
  NilEmpty.string_of_int (Z.to_int z).

Definition hex_digit (n : nat) : ascii :=
  match String.get n "0123456789abcdef" with
  | Some c => c
  | None => "0"%char
  end.

(** One character of [repr] of text, inside quotes [q]. *)
Definition repr_char (q c : ascii) : string :=
  let n := nat_of_ascii c in
  if Ascii.eqb c q || Ascii.eqb c "\"%char then String "\"%char (String c EmptyString)
  else if (n =? 9)%nat then "\t"
  else if (n =? 10)%nat then "\n"
  else if (n =? 13)%nat then "\r"
  else if (n <? 32)%nat || (n =? 127)%nat
  then "\x" ++ String (hex_digit (n / 16)) (String (hex_digit (n mod 16)) EmptyString)
  else String c EmptyString.

Fixpoint repr_chars (q : ascii) (s : string) : string :=
  match s with
  | EmptyString => EmptyString
  | String c rest => repr_char q c ++ repr_chars q rest
  end.

(** [repr] of text: single quotes, unless the text has a single quote and
    no double quote. *)
Definition repr_str (s : string) : string :=
  let q := if str_contains "'" s && negb (str_contains (String (ascii_of_nat 34) EmptyString) s)
           then ascii_of_nat 34 else "'"%char in
  String q (repr_chars q s) ++ String q EmptyString.

Fixpoint py_repr (v : pyval) : string :=
  match v with
  | PNone => "None"
  | PBool true => "True"
  | PBool false => "False"
  | PInt z => Z_to_string z
  | PStr s => repr_str s
  | PList l => "[" ++ String.concat ", " (map py_repr l) ++ "]"
  | PDict d =>
      "{" ++ String.concat ", "
               (map (fun kv => repr_str (fst kv) ++ ": " ++ py_repr (snd kv)) d)
          ++ "}"
  end.

Definition py_str (v : pyval) : string :=
  match v with
  | PStr s => s
  | _ => py_repr v
  end.

(** ** data_storage.py: the activity store *)

(** What pandas does on this file is taken as follows.  [to_csv] writes
    one line per row, a missing value as the empty text, any other value as
    its [str()]; [read_csv] skips blank lines, takes the first line as the
    header, reads an empty cell or one of its NA markers as NaN, fills a
    short line with NaN and refuses a line longer than the header.  Quoting
    is undone by the tokeniser and is not modelled; neither is the
    inference of numeric columns, so a cell is compared as text.  The text
    of a timestamp and [pd.to_datetime] on one cell are parameters. *)
Class PandasLib : Type := {
  instant : Type;
  instant_str : instant -> string;
  to_datetime_cell : string -> option instant
}.

(** The non-blank lines of a file, each the list of its cells. *)
Definition csv_file : Type := list (list string).

(** [DATA_FILE]: absent, or the lines it holds. *)
Definition store : Type := option csv_file.

Definition COLUMNS : list string :=
  ["Timestamp"; "AppName"; "CrispDescription"; "MainTopic";
   "ShortDescription"; "ScreenshotFile"].

(** The default NA markers of [read_csv]. *)
Definition NA_VALUES : list string :=
  [""; "#N/A"; "#N/A N/A"; "#NA"; "-1.#IND"; "-1.#QNAN"; "-NaN"; "-nan";
   "1.#IND"; "1.#QNAN"; "<NA>"; "N/A"; "NA"; "NULL"; "NaN"; "None"; "n/a";
   "nan"; "null"].

Definition is_na (s : string) : bool := existsb (String.eqb s) NA_VALUES.

Module DataStorage.
Section Store.
Context {P : PandasLib}.

Inductive cell : Type :=
| NaN
| Text (s : string)
| Time (t : instant)
| NaT.

Record DataFrame : Type := {
  columns : list string;
  rows : list (list cell)
}.

(** [pd.DataFrame(columns=[...])] *)
Definition empty_frame : DataFrame := {| columns := COLUMNS; rows := [] |}.

(** One cell as [to_csv] writes it. *)
Definition to_csv_cell (v : pyval) : string :=
  match v with
  | PNone => ""
  | _ => py_str v
  end.

(** [save_activity(timestamp, app_name, crisp_desc, main_topic, short_desc,
    screenshot_path)]: the first write creates the file with its header,
    a later one appends the line alone. *)
Definition save_activity (timestamp : instant) (app_name : string)
    (crisp_desc main_topic short_desc : pyval)
    (screenshot_path : option string) (file : store) : store :=
  let screenshot_file :=
    match screenshot_path with
    | Some p => if p =? "" then PNone else PStr (basename p)
    | None => PNone
    end in
  let line := [instant_str timestamp; to_csv_cell (PStr app_name);
               to_csv_cell crisp_desc; to_csv_cell main_topic;
               to_csv_cell short_desc; to_csv_cell screenshot_file] in
  match file with
  | None => Some [COLUMNS; line]
  | Some lines => Some (lines ++ [line])%list
  end.

(** [f'] is [f] with the one line [line] appended by [save_activity]. *)
Definition appended (f f' : store) (line : list string) : Prop :=
  f' = match f with
       | None => Some [COLUMNS; line]
       | Some lines => Some (lines ++ [line])%list
       end.

Inductive read_error : Type := EmptyDataError | ParserError.

Definition na_filter (s : string) : cell := if is_na s then NaN else Text s.

Definition read_line (width : nat) (line : list string) : list cell :=
  (map na_filter line ++ repeat NaN (width - List.length line))%list.

(** [pd.read_csv(DATA_FILE)] *)
Definition read_csv (lines : csv_file) : read_error + DataFrame :=
  match lines with
  | [] => inl EmptyDataError
  | header :: body =>
      if forallb (fun line => (List.length line <=? List.length header)%nat) body
      then inr {| columns := header; rows := map (read_line (List.length header)) body |}
      else inl ParserError
  end.

Fixpoint column_index (name : string) (cols : list string) : option nat :=
  match cols with
  | [] => None
  | c :: rest =>
      if c =? name then Some 0%nat else option_map S (column_index name rest)
  end.

(** [pd.to_datetime] on one value: missing gives NaT, text is parsed. *)
Definition to_datetime_value (c : cell) : option cell :=
  match c with
  | NaN => Some NaT
  | Text s => option_map Time (to_datetime_cell s)
  | other => Some other
  end.

Fixpoint set_nth (i : nat) (c : cell) (row : list cell) : list cell :=
  match row, i with
  | [], _ => []
  | _ :: rest, O => c :: rest
  | x :: rest, S j => x :: set_nth j c rest
  end.

(** [pd.to_datetime(column)] with the default [errors='raise']: one cell
    that does not parse fails the conversion of the column. *)
Fixpoint to_datetime (i : nat) (rs : list (list cell)) : option (list (list cell)) :=
  match rs with
  | [] => Some []
  | row :: rest =>
      match to_datetime_value (nth i row NaN), to_datetime i rest with
      | Some c, Some rest' => Some (set_nth i c row :: rest')
      | _, _ => None
      end
  end.

(** [load_activity_data()] *)
Definition load_activity_data (file : store) : DataFrame :=
  match file with
  | Some lines =>
      match read_csv lines with
      | inr df =>
          match column_index "Timestamp" (columns df) with
          | Some i =>
              match to_datetime i (rows df) with
              | Some rs => {| columns := columns df; rows := rs |}
              | None => empty_frame          (* except Exception *)
              end
          | None => empty_frame              (* KeyError, except Exception *)
          end
      | inl EmptyDataError => empty_frame
      | inl ParserError => empty_frame       (* except Exception *)
      end
  | None => empty_frame
  end.




End Store.
End DataStorage.

(** ** main.py: one iteration of the tracking loop *)

(** How the body of a [for] loop hands over: to the next round (falling
    off the end, or [continue]), or out of the loop ([break]). *)
Inductive flow (S : Type) : Type :=
| Next (s : S)
| Break (s : S).
Arguments Next {S} s.
Arguments Break {S} s.

Fixpoint for_each {S : Type} (body : nat -> S -> flow S) (xs : list nat) (s : S) : S :=
  match xs with
  | [] => s
  | x :: rest =>
      match body x s with
      | Next s' => for_each body rest s'
      | Break s' => s'
      end
  end.

Module Main.
Import DataStorage.
Section Tracker.
Context {P : PandasLib}.

(** [MAX_RETRIES = int(os.getenv('MAX_RETRIES', 3))] *)
Variable MAX_RETRIES : Z.

(** What the platform answers during one iteration: the clock, the window
    title, and the outcome of each call of [take_screenshot] and of
    [analyze_screenshot], numbered by attempt. *)
Record env : Type := {
  now : instant;
  get_active_window_title : outcome string;
  take_screenshot : nat -> outcome (option string);
  analyze_screenshot : nat -> outcome pyval
}.

Variable E : env.

(** [range(MAX_RETRIES)] *)
Definition attempts : list nat := seq 0 (Z.to_nat MAX_RETRIES).

(** [attempt < MAX_RETRIES - 1] *)
Definition retries_left (attempt : nat) : bool :=
  (Z.of_nat attempt <? MAX_RETRIES - 1)%Z.

Definition path_truthy (p : option string) : bool :=
  match p with
  | Some s => negb (s =? "")
  | None => false
  end.

(** Lines 40-46. *)
Definition active_window : string :=
  match get_active_window_title E with
  | Returns title => title
  | Raises _ => "Unknown"
  end.

(** The capture phase keeps [screenshot_path] and counts the calls. *)
Record capture_state : Type := {
  screenshot_path : option string;
  shots_taken : nat
}.

(** Lines 50-63, one round. *)
Definition capture_attempt (attempt : nat) (st : capture_state) : flow capture_state :=
  match take_screenshot E attempt with
  | Returns p =>
      let st' := {| screenshot_path := p; shots_taken := S (shots_taken st) |} in
      if path_truthy p then Break st' else Next st'
  | Raises _ =>
      Next {| screenshot_path := screenshot_path st; shots_taken := S (shots_taken st) |}
  end.

(** The classification phase keeps [analysis_result] and the file, and
    counts the calls. *)
Record analysis_state : Type := {
  analysis_result : pyval;
  file : store;
  analyses_made : nat
}.

(** Lines 94-101: the handler of the round. *)
Definition on_exception (path : option string) (attempt : nat) (e : string)
    (current : pyval) (st : analysis_state) : flow analysis_state :=
  if retries_left attempt
  then Next {| analysis_result := current; file := file st;
               analyses_made := S (analyses_made st) |}
  else Next {| analysis_result := PNone;
               file := save_activity (now E) active_window (PStr "Analysis Failed")
                         (PStr "Error") (PStr ("Exception during analysis: " ++ e))
                         path (file st);
               analyses_made := S (analyses_made st) |}.

(** Lines 73-101, one round. *)
Definition analysis_attempt (path : option string) (attempt : nat)
    (st : analysis_state) : flow analysis_state :=
  match analyze_screenshot E attempt with
  | Raises e => on_exception path attempt e (analysis_result st) st
  | Returns r =>
      let calls := S (analyses_made st) in
      if py_truthy r then
        match py_contains "error" r with
        | Raises e => on_exception path attempt e r st
        | Returns true =>
            match py_get r "error" PNone, py_get r "raw_content" (PStr "Analysis failed") with
            | Returns err, Returns raw =>
                if py_eq_str err "JSONDecodeError" && retries_left attempt
                then Next {| analysis_result := r; file := file st;
                             analyses_made := calls |}
                else Break {| analysis_result := PNone;
                              file := save_activity (now E) active_window
                                        (PStr "Analysis Error") (PStr "Error") raw
                                        path (file st);
                              analyses_made := calls |}
            | Raises e, _ => on_exception path attempt e r st
            | _, Raises e => on_exception path attempt e r st
            end
        | Returns false =>
            Break {| analysis_result := r; file := file st; analyses_made := calls |}
        end
      else Next {| analysis_result := r; file := file st; analyses_made := calls |}
  end.

(** What one iteration leaves: the file, the calls it made, and the
    exception that left the function, if one did. *)
Record iteration : Type := {
  final_file : store;
  captures : nat;
  analyses : nat;
  escaped : option string
}.

(** Lines 104-119. *)
Definition save_step (path : option string) (st : analysis_state) : store * option string :=
  let r := analysis_result st in
  if py_truthy r then
    match py_contains "error" r with
    | Raises e => (file st, Some e)
    | Returns false =>
        match py_get r "crisp_description" (PStr "N/A"),
              py_get r "main_topic" (PStr "N/A"),
              py_get r "short_description" (PStr "N/A") with
        | Returns crisp, Returns topic, Returns short =>
            (save_activity (now E) active_window crisp topic short path (file st), None)
        | _, _, _ => (file st, None)         (* except Exception: logged *)
        end
    | Returns true => (file st, None)
    end
  else (file st, None).

(** [run_tracker_iteration()] on the file [f]. *)
Definition run_tracker_iteration (f : store) : iteration :=
  let shot := for_each capture_attempt attempts
                {| screenshot_path := None; shots_taken := 0 |} in
  if negb (path_truthy (screenshot_path shot))
  then {| final_file := f; captures := shots_taken shot; analyses := 0;
          escaped := None |}
  else
    let path := screenshot_path shot in
    let st := for_each (analysis_attempt path) attempts
                {| analysis_result := PNone; file := f; analyses_made := 0 |} in
    let '(f', exn) := save_step path st in
    {| final_file := f'; captures := shots_taken shot;
       analyses := analyses_made st; escaped := exn |}.

(** A capture that failed: an exception, [None], or an empty path. *)
Definition capture_fails (o : outcome (option string)) : Prop :=
  match o with
  | Returns p => path_truthy p = false
  | Raises _ => True
  end.

(** The capture phase ended with the path [p]. *)
Definition captured (p : string) : Prop :=
  screenshot_path
    (for_each capture_attempt attempts {| screenshot_path := None; shots_taken := 0 |})
  = Some p /\ p <> "".

(** An outcome of [analyze_screenshot] after which the loop goes on while
    retries are left: an exception, a falsy result, a [JSONDecodeError]. *)
Inductive retryable : outcome pyval -> Prop :=
| retry_raise e : retryable (Raises e)
| retry_falsy r : py_truthy r = false -> retryable (Returns r)
| retry_json raw :
    retryable (Returns (ImageAnalysis.error_dict "JSONDecodeError" raw)).

(** The round [j] writes nothing and hands over to the next round. *)
Definition passes (path : option string) (j : nat) : Prop :=
  forall st, exists r,
    analysis_attempt path j st
    = Next {| analysis_result := r; file := file st;
              analyses_made := S (analyses_made st) |}.

(** The file after a failure record of the classification phase. *)
Definition failure_record (path : option string) (f f' : store) : Prop :=
  exists crisp short,
    (crisp = "Analysis Error" \/ crisp = "Analysis Failed")
    /\ f' = save_activity (now E) active_window (PStr crisp) (PStr "Error")
              short path f.

End Tracker.
End Main.

(** ** topic_normalizer.py: the memoised normaliser *)

Module TopicNormalizer.
Section Normalizer.

(** Whether the module-level [client] was initialised at import. *)
Variable client : bool.

(** The remote model: the outcome of the [n]-th request of the process,
    made for a topic: [message.content] (which may be [None]) or an
    exception. *)
Variable remote : nat -> string -> outcome (option string).

(** [@lru_cache(maxsize=100)] *)
Definition MAXSIZE : nat := 100.

(** The cache lists its entries from the most recently used to the least
    recently used; [requests] counts the remote calls made so far. *)
Record state : Type := {
  cache : list (pyval * pyval);
  requests : nat
}.

Definition initial : state := {| cache := []; requests := 0 |}.

(** A list or a dict cannot be a cache key. *)
Definition hashable (v : pyval) : bool :=
  match v with
  | PList _ | PDict _ => false
  | _ => true
  end.

(** Equality of cache keys.  An exact [int] or [str] argument is its own
    key, any other argument is keyed by the argument tuple, so that [True]
    and [1] are different keys. *)
Definition key_eqb (a b : pyval) : bool :=
  match a, b with
  | PNone, PNone => true
  | PBool x, PBool y => Bool.eqb x y
  | PInt x, PInt y => (x =? y)%Z
  | PStr s, PStr t => s =? t
  | _, _ => false
  end.

Fixpoint cache_find (k : pyval) (c : list (pyval * pyval)) : option pyval :=
  match c with
  | [] => None
  | (k', v) :: rest => if key_eqb k' k then Some v else cache_find k rest
  end.

Fixpoint cache_remove (k : pyval) (c : list (pyval * pyval)) : list (pyval * pyval) :=
  match c with
  | [] => []
  | (k', v) :: rest =>
      if key_eqb k' k then rest else (k', v) :: cache_remove k rest
  end.

(** The degenerate topics of line 68: [not topic or not isinstance(topic, str)]. *)
Definition degenerate (topic : pyval) : bool :=
  negb (py_truthy topic) || negb (is_str topic).

(** The body of [normalize_topic] (lines 63-105) with [n] requests made
    before: the value returned and the requests made after. *)
Definition normalize_body (topic : pyval) (n : nat) : pyval * nat :=
  if negb client then (topic, n)
  else if degenerate topic then (PStr "Unknown", n)
  else match topic with
       | PStr t =>
           match remote n t with
           | Returns (Some content) => (PStr (py_strip content), S n)
           | Returns None => (topic, S n)      (* None.strip(): except Exception *)
           | Raises _ => (topic, S n)          (* except Exception *)
           end
       | _ => (PStr "Unknown", n)
       end.

(** [normalize_topic(topic)] through the cache: a hit returns the stored
    value and makes the entry the most recent; a miss runs the body,
    stores its value as the most recent entry and, when the cache is full,
    drops the least recently used one. *)
Definition normalize_topic (topic : pyval) (st : state) : outcome pyval * state :=
  if negb (hashable topic)
  then (Raises ("unhashable type: '" ++ py_type_name topic ++ "'"), st)
  else match cache_find topic (cache st) with
       | Some v =>
           (Returns v,
            {| cache := (topic, v) :: cache_remove topic (cache st);
               requests := requests st |})
       | None =>
           let '(v, n) := normalize_body topic (requests st) in
           let kept := if (MAXSIZE <=? List.length (cache st))%nat
                       then removelast (cache st) else cache st in
           (Returns v, {| cache := (topic, v) :: kept; requests := n |})
       end.

(** A run of calls, one after the other. *)
Fixpoint run_calls (topics : list pyval) (st : state) : state :=
  match topics with
  | [] => st
  | t :: rest => run_calls rest (snd (normalize_topic t st))
  end.

(** The key stays cached from [st] on through every call of [topics]. *)
Fixpoint stays_cached (k : pyval) (topics : list pyval) (st : state) : Prop :=
  cache_find k (cache st) <> None /\
  match topics with
  | [] => True
  | t :: rest => stays_cached k rest (snd (normalize_topic t st))
  end.

(** The calls of [later] name fewer than [MAXSIZE] distinct hashable
    topics other than [k]. *)
Definition few_others (k : pyval) (later : list pyval) : Prop :=
  exists others,
    NoDup others /\ List.length others < MAXSIZE
    /\ forall t, In t later -> hashable t = true -> t <> k -> In t others.

(** The entry of [k] is in the cache, behind entries whose topics are
    among [others]. *)
Definition behind (others : list pyval) (k : pyval) (c : list (pyval * pyval)) : Prop :=
  exists front back v,
    c = (front ++ (k, v) :: back)%list /\ incl (map fst front) others.

End Normalizer.
End TopicNormalizer.

(** ** Reference instances of the library parameters

    A decoder for the JSON the examples use (objects, arrays, text with
    the short escapes, integers, the three literals) and the date-time
    text [YYYY-MM-DD HH:MM:SS].  The theorems hold for every instance;
    these two make the examples run. *)

Module Reference.

Definition json_ws (c : ascii) : bool :=
  let n := nat_of_ascii c in
  ((n =? 32) || (n =? 9) || (n =? 10) || (n =? 13))%nat.

Definition skip_ws (cs : string) : string := lstrip_by json_ws cs.

(** The rest of [cs] after the literal [lit], when [cs] starts with it. *)
Fixpoint after (lit cs : string) : option string :=
  match lit, cs with
  | EmptyString, _ => Some cs
  | String a lit', String c cs' => if Ascii.eqb a c then after lit' cs' else None
  | String _ _, EmptyString => None
  end.

Definition unescape (c : ascii) : option ascii :=
  if Ascii.eqb c (ascii_of_nat 34) then Some (ascii_of_nat 34)
  else if Ascii.eqb c "\"%char then Some "\"%char
  else if Ascii.eqb c "/"%char then Some "/"%char
  else if Ascii.eqb c "b"%char then Some (ascii_of_nat 8)
  else if Ascii.eqb c "f"%char then Some (ascii_of_nat 12)
  else if Ascii.eqb c "n"%char then Some (ascii_of_nat 10)
  else if Ascii.eqb c "r"%char then Some (ascii_of_nat 13)
  else if Ascii.eqb c "t"%char then Some (ascii_of_nat 9)
  else None.

Definition cons_char (c : ascii) (r : string * string) : string * string :=
  (String c (fst r), snd r).

(** A text literal after its opening quote: the text and what follows the
    closing quote. *)
Fixpoint scan_string (cs : string) : option (string * string) :=
  match cs with
  | EmptyString => None
  | String c rest =>
      if Ascii.eqb c (ascii_of_nat 34) then Some (EmptyString, rest)
      else if Ascii.eqb c "\"%char then
        match rest with
        | String e rest' =>
            match unescape e with
            | Some x => option_map (cons_char x) (scan_string rest')
            | None => None
            end
        | EmptyString => None
        end
      else if (nat_of_ascii c <? 32)%nat then None
      else option_map (cons_char c) (scan_string rest)
  end.

Definition is_digit (c : ascii) : bool :=
  let n := nat_of_ascii c in ((48 <=? n) && (n <=? 57))%nat.

Fixpoint scan_digits (acc : Z) (cs : string) : Z * string :=
  match cs with
  | String c rest =>
      if is_digit c
      then scan_digits (10 * acc + Z.of_nat (nat_of_ascii c - 48))%Z rest
      else (acc, cs)
  | EmptyString => (acc, cs)
  end.

(** An integer: [0], or a non-zero digit and more digits; a fraction or an
    exponent is outside the subset. *)
Definition scan_int (cs : string) : option (Z * string) :=
  match cs with
  | String c rest =>
      if Ascii.eqb c "0"%char then Some (0%Z, rest)
      else if is_digit c then
        let '(z, r) := scan_digits 0%Z cs in
        match r with
        | String d _ =>
            if Ascii.eqb d "."%char || Ascii.eqb d "e"%char || Ascii.eqb d "E"%char
            then None else Some (z, r)
        | EmptyString => Some (z, r)
        end
      else None
  | EmptyString => None
  end.

Fixpoint scan_value (fuel : nat) (cs : string) {struct fuel} : option (pyval * string) :=
  match fuel with
  | O => None
  | S fuel' =>
      match cs with
      | EmptyString => None
      | String c rest =>
          if Ascii.eqb c "{"%char then
            match skip_ws rest with
            | String d r =>
                if Ascii.eqb d "}"%char then Some (PDict [], r)
                else scan_members fuel' (skip_ws rest) []
            | EmptyString => None
            end
          else if Ascii.eqb c "["%char then
            match skip_ws rest with
            | String d r =>
                if Ascii.eqb d "]"%char then Some (PList [], r)
                else scan_items fuel' (skip_ws rest) []
            | EmptyString => None
            end
          else if Ascii.eqb c (ascii_of_nat 34) then
            option_map (fun sr => (PStr (fst sr), snd sr)) (scan_string rest)
          else if Ascii.eqb c "-"%char then
            option_map (fun zr => (PInt (- fst zr), snd zr)) (scan_int rest)
          else if is_digit c then
            option_map (fun zr => (PInt (fst zr), snd zr)) (scan_int cs)
          else match after "null" cs, after "true" cs, after "false" cs with
               | Some r, _, _ => Some (PNone, r)
               | _, Some r, _ => Some (PBool true, r)
               | _, _, Some r => Some (PBool false, r)
               | _, _, _ => None
               end
      end
  end

with scan_items (fuel : nat) (cs : string) (acc : list pyval) {struct fuel}
  : option (pyval * string) :=
  match fuel with
  | O => None
  | S fuel' =>
      match scan_value fuel' cs with
      | Some (v, r) =>
          match skip_ws r with
          | String d r' =>
              if Ascii.eqb d "]"%char then Some (PList (acc ++ [v])%list, r')
              else if Ascii.eqb d ","%char
              then scan_items fuel' (skip_ws r') (acc ++ [v])%list
              else None
          | EmptyString => None
          end
      | None => None
      end
  end

with scan_members (fuel : nat) (cs : string) (acc : list (string * pyval)) {struct fuel}
  : option (pyval * string) :=
  match fuel with
  | O => None
  | S fuel' =>
      match after (String (ascii_of_nat 34) EmptyString) cs with
      | Some r0 =>
          match scan_string r0 with
          | Some (k, r1) =>
              match after ":" (skip_ws r1) with
              | Some r2 =>
                  match scan_value fuel' (skip_ws r2) with
                  | Some (v, r3) =>
                      match skip_ws r3 with
                      | String d r4 =>
                          if Ascii.eqb d "}"%char then Some (PDict (dict_set k v acc), r4)
                          else if Ascii.eqb d ","%char
                          then scan_members fuel' (skip_ws r4) (dict_set k v acc)
                          else None
                      | EmptyString => None
                      end
                  | None => None
                  end
              | None => None
              end
          | None => None
          end
      | None => None
      end
  end.

(** The whole text is one value between white space. *)
Definition loads (s : string) : option pyval :=
  match scan_value (3 * S (String.length s)) (skip_ws s) with
  | Some (v, rest) =>
      match skip_ws rest with
      | EmptyString => Some v
      | String _ _ => None
      end
  | None => None
  end.

Definition json : JsonLib := {| json_loads := loads |}.

(** Date and time to the second. *)
Record datetime : Type := {
  year : nat; month : nat; day : nat;
  hour : nat; minute : nat; second : nat
}.

Definition digits (n : nat) : string := NilEmpty.string_of_uint (Nat.to_uint n).

Definition pad (width n : nat) : string :=
  let d := digits n in
  string_of_list_ascii (repeat "0"%char (width - String.length d)) ++ d.

Definition datetime_str (t : datetime) : string :=
  pad 4 (year t) ++ "-" ++ pad 2 (month t) ++ "-" ++ pad 2 (day t) ++ " "
  ++ pad 2 (hour t) ++ ":" ++ pad 2 (minute t) ++ ":" ++ pad 2 (second t).

(** The number a text of digits alone denotes. *)
Definition number (s : string) : option nat :=
  match s with
  | EmptyString => None
  | _ =>
      let '(z, r) := scan_digits 0%Z s in
      match r with
      | EmptyString => Some (Z.to_nat z)
      | String _ _ => None
      end
  end.

Definition parse_datetime (s : string) : option datetime :=
  if negb (String.length s =? 19)%nat then None
  else if negb ((substring 4 1 s =? "-") && (substring 7 1 s =? "-")
                && (substring 10 1 s =? " ") && (substring 13 1 s =? ":")
                && (substring 16 1 s =? ":")) then None
  else match number (substring 0 4 s), number (substring 5 2 s),
             number (substring 8 2 s), number (substring 11 2 s),
             number (substring 14 2 s), number (substring 17 2 s) with
       | Some y, Some mo, Some d, Some h, Some mi, Some sec =>
           if ((1 <=? mo) && (mo <=? 12) && (1 <=? d) && (d <=? 31)
               && (h <? 24) && (mi <? 60) && (sec <? 60))%nat
           then Some {| year := y; month := mo; day := d;
                        hour := h; minute := mi; second := sec |}
           else None
       | _, _, _, _, _, _ => None
       end.

Definition pandas : PandasLib :=
  {| instant := datetime; instant_str := datetime_str;
     to_datetime_cell := parse_datetime |}.

End Reference.

(** ** Concrete runs used in the examples *)

Module Examples.
Import Reference.

Definition DQ : string := String (ascii_of_nat 34) EmptyString.

(** The text of a JSON object with the given text members. *)
Fixpoint json_members (kvs : list (string * string)) : string :=
  match kvs with
  | [] => ""
  | [(k, v)] => DQ ++ k ++ DQ ++ ": " ++ DQ ++ v ++ DQ
  | (k, v) :: rest => DQ ++ k ++ DQ ++ ": " ++ DQ ++ v ++ DQ ++ ", " ++ json_members rest
  end.

Definition json_object (kvs : list (string * string)) : string :=
  "{" ++ json_members kvs ++ "}".

Definition good_json : string :=
  json_object [("crisp_description", "Editing a proof script");
               ("main_topic", "Proof engineering");
               ("short_description", "Editing")].

Definition good_result : pyval :=
  PDict [("crisp_description", PStr "Editing a proof script");
         ("main_topic", PStr "Proof engineering");
         ("short_description", PStr "Editing")].

Definition noon : @instant pandas :=
  {| year := 2024; month := 3; day := 5; hour := 12; minute := 0; second := 59 |}.

Definition shot_path : string := "data/screenshots/screenshot_20240305_120059.png".

(** The platform of an iteration, from the outcomes of its calls. *)
Definition platform (shots : nat -> outcome (option string))
    (results : nat -> outcome pyval) : Main.env (P := pandas) :=
  {| Main.now := noon;
     Main.get_active_window_title := Returns "Editor";
     Main.take_screenshot := shots;
     Main.analyze_screenshot := results |}.

Definition capture_ok : nat -> outcome (option string) :=
  fun _ => Returns (Some shot_path).

(** The grab raises once, then [take_screenshot] returns [None]. *)
Definition capture_down : nat -> outcome (option string) :=
  fun a => match a with O => Raises "screen grab failed" | _ => Returns None end.

(** The request fails at every attempt: [analyze_screenshot] catches the
    exception and returns [None]. *)
Definition api_down : nat -> outcome pyval :=
  fun _ => Returns (ImageAnalysis.analyze_screenshot (J := json) true (Some "iVBORw0KGgo=")
                      (Raises "Connection error."))%string.

(** An exception reaches the loop at every attempt. *)
Definition api_raises : nat -> outcome pyval :=
  fun _ => Raises "Connection error.".

(** The model answers [not json] at every attempt. *)
Definition api_malformed : nat -> outcome pyval :=
  fun _ => Returns (ImageAnalysis.analyze_screenshot (J := json) true (Some "iVBORw0KGgo=")
                      (Returns (Some "not json"))).

(** The model answers [not json], then the three keys. *)
Definition api_second_try : nat -> outcome pyval :=
  fun a => Returns (ImageAnalysis.analyze_screenshot (J := json) true (Some "iVBORw0KGgo=")
                      (Returns (Some (match a with O => "not json" | _ => good_json end)))).

(** The remote model is unreachable. *)
Definition remote_down : nat -> string -> outcome (option string) :=
  fun _ _ => Raises "Connection error.".

(** The remote model answers every topic with the same title. *)
Definition remote_titles : nat -> string -> outcome (option string) :=
  fun _ _ => Returns (Some (" Python Programming" ++ LF)).

(** The first request times out, the later ones are answered. *)
Definition remote_flaky : nat -> string -> outcome (option string) :=
  fun n _ => match n with
             | O => Raises "Request timed out."
             | _ => Returns (Some "Python Programming")
             end.

(** A hundred distinct topics, enough to fill the cache. *)
Definition hundred_topics : list pyval :=
  map (fun n => PInt (Z.of_nat n)) (seq 0 100).

Definition good_line : list string :=
  ["2024-03-05 12:00:59"; "Editor"; "Editing a proof script"; "Proof engineering";
   "Editing"; "screenshot_20240305_120059.png"].


End Examples.

(** ** utils.py and screenshot_capture.py: the two platform calls *)

Module Utils.

(** [get_active_window_title()].  [window] is what [gw.getActiveWindow()]
    answers: a window with its title, no window, or an exception. *)
Definition get_active_window_title (window : outcome (option string)) : string :=
  match window with
  | Returns (Some title) => title
  | Returns None => "No active window found"
  | Raises _ => "Error getting window title"
  end.

End Utils.

Module ScreenshotCapture.

Definition SCREENSHOT_DIR : string := "data/screenshots".

Fixpoint ends_with_slash (s : string) : bool :=
  match s with
  | EmptyString => false
  | String c EmptyString => Ascii.eqb c "/"
  | String _ rest => ends_with_slash rest
  end.

(** [os.path.join(a, b)] (posixpath): an absolute [b] stands alone,
    otherwise one slash separates the two. *)
Definition path_join (a b : string) : string :=
  if String.prefix "/" b then b
  else if (a =? "") || ends_with_slash a then a ++ b
  else a ++ "/" ++ b.

(** [take_screenshot()].  [grab] is the outcome of creating the directory,
    grabbing the screen and saving the image, [stamp] the text of
    [datetime.now().strftime("%Y%m%d_%H%M%S")].  Any exception is caught
    and gives [None]. *)
Definition take_screenshot (grab : outcome unit) (stamp : string) : option string :=
  match grab with
  | Returns _ => Some (path_join SCREENSHOT_DIR ("screenshot_" ++ stamp ++ ".png"))
  | Raises _ => None
  end.

End ScreenshotCapture.

(** ** The tracker with its own callees *)

Module System.
Section World.
Context {J : JsonLib} {P : PandasLib}.

(** What lies outside the repository during one iteration: the clock, the
    window manager, and per attempt the screen grab with its time stamp,
    the encoded image and the answer of the remote model. *)
Record world : Type := {
  clock : instant;
  window : outcome (option string);
  grabs : nat -> outcome unit;
  stamps : nat -> string;
  client : bool;
  images : nat -> option string;
  responses : nat -> outcome (option string)
}.

(** The platform [main.py] sees when its callees are those of [utils.py],
    [screenshot_capture.py] and [image_analysis.py]: each of them catches
    its exceptions, so each call returns. *)
Definition env_of (w : world) : Main.env :=
  {| Main.now := clock w;
     Main.get_active_window_title :=
       Returns (Utils.get_active_window_title (window w));
     Main.take_screenshot :=
       fun attempt => Returns (ScreenshotCapture.take_screenshot (grabs w attempt)
                                 (stamps w attempt));
     Main.analyze_screenshot :=
       fun attempt => Returns (ImageAnalysis.analyze_screenshot (client w)
                                 (images w attempt) (responses w attempt)) |}.

End World.
End System.

(** ** main.py: the loop of [main()] *)

Module MainLoop.
Import DataStorage Main.
Section Loop.
Context {P : PandasLib}.
Variable MAX_RETRIES : Z.

(** The first rounds of the [while True] loop of [main()], one platform
    per round.  An exception that leaves an iteration is caught and logged
    by the loop, which goes on with the file as the iteration left it. *)
Fixpoint main (rounds : list env) (f : store) : store :=
  match rounds with
  | [] => f
  | E :: rest => main rest (final_file (run_tracker_iteration MAX_RETRIES E f))
  end.

(** The file [f] with the lines [added] appended by [save_activity]: the
    header comes first when the file did not exist. *)
Definition extended (f : store) (added : list (list string)) : store :=
  match added, f with
  | [], _ => f
  | _, None => Some (COLUMNS :: added)
  | _, Some lines => Some (lines ++ added)%list
  end.

End Loop.
End MainLoop.

(** ** data_storage.py: a run of saves *)

Module Log.
Import DataStorage.
Section Records.
Context {P : PandasLib}.

(** The arguments of one call of [save_activity]. *)
Record activity : Type := {
  timestamp : instant;
  app_name : string;
  crisp_desc : pyval;
  main_topic : pyval;
  short_desc : pyval;
  screenshot_path : option string
}.

Definition save_record (r : activity) (f : store) : store :=
  save_activity (timestamp r) (app_name r) (crisp_desc r) (main_topic r)
    (short_desc r) (screenshot_path r) f.

(** The line [save_activity] writes for the record. *)
Definition line_of (r : activity) : list string :=
  [instant_str (timestamp r); to_csv_cell (PStr (app_name r));
   to_csv_cell (crisp_desc r); to_csv_cell (main_topic r);
   to_csv_cell (short_desc r);
   to_csv_cell match screenshot_path r with
               | Some p => if p =? "" then PNone else PStr (basename p)
               | None => PNone
               end].

(** One call of [save_activity] after the other. *)
Fixpoint save_all (rs : list activity) (f : store) : store :=
  match rs with
  | [] => f
  | r :: rest => save_all rest (save_record r f)
  end.



Definition is_instant (c : cell) : bool :=
  match c with
  | Time _ | NaT => true
  | _ => false
  end.

End Records.
End Log.

(** ** app.py: what the dashboard reads *)

Module App.
Import DataStorage.
Section Dashboard.
Context {P : PandasLib}.

(** [df.empty]: no row or no column. *)
Definition frame_empty (df : DataFrame) : bool :=
  match rows df, columns df with
  | [], _ => true
  | _, [] => true
  | _, _ => false
  end.

(** [pd.api.types.is_datetime64_any_dtype(df['Timestamp'])], read off the
    cells: on the frames [load_activity_data] returns, the column holds
    instants exactly when the conversion of [data_storage.py] was done. *)
Definition is_datetime_column (i : nat) (df : DataFrame) : bool :=
  forallb (fun row => Log.is_instant (nth i row NaN)) (rows df).

(** [pd.to_datetime(..., errors='coerce')] on one value. *)
Definition coerce_value (c : cell) : cell :=
  match c with
  | NaN => NaT
  | Text s =>
      match to_datetime_cell s with
      | Some t => Time t
      | None => NaT
      end
  | other => other
  end.

Definition is_missing (c : cell) : bool :=
  match c with
  | NaN | NaT => true
  | _ => false
  end.

(** Lines 22-23: coerce the column, then [dropna(subset=['Timestamp'])]. *)
Definition coerce_dropna (i : nat) (df : DataFrame) : DataFrame :=
  {| columns := columns df;
     rows := filter (fun row => negb (is_missing (nth i row NaN)))
               (map (fun row => set_nth i (coerce_value (nth i row NaN)) row)
                  (rows df)) |}.

(** Lines 14-23: the frame the dashboard goes on with, or [None] when the
    script stops on an empty frame. *)
Definition dashboard_frame (file : store) : option DataFrame :=
  let df := load_activity_data file in
  if frame_empty df then None
  else match column_index "Timestamp" (columns df) with
       | Some i =>
           if negb (is_datetime_column i df) then Some (coerce_dropna i df)
           else Some df
       | None => Some df
       end.

(** Lines 150-152 of the screenshot viewer: the path looked up for the
    [ScreenshotFile] cell of the selected row, when it is a non-empty text. *)
Definition screenshot_to_show (c : cell) : option string :=
  match c with
  | Text s =>
      if s =? "" then None
      else Some (ScreenshotCapture.path_join ScreenshotCapture.SCREENSHOT_DIR s)
  | _ => None
  end.

End Dashboard.
End App.

(** ** Results of the analysis, by shape *)

Module Results.


(** A decoded value that is no container. *)
Definition scalar (v : pyval) : bool :=
  match v with
  | PNone | PBool _ | PInt _ => true
  | _ => false
  end.

End Results.

(** ** More scenarios *)

Module MoreExamples.
Import Reference Examples.

(** The grab fails once, then works. *)
Definition capture_second_try : nat -> outcome (option string) :=
  fun a => Returns (ScreenshotCapture.take_screenshot
                      match a with
                      | O => Raises "screen grab failed"
                      | _ => Returns tt
                      end "20240305_120059").

(** A session in which everything works and the model gives [answer] at
    every request. *)
Definition session (answer : string) : System.world (P := pandas) :=
  {| System.clock := noon;
     System.window := Returns (Some "Editor");
     System.grabs := fun _ => Returns tt;
     System.stamps := fun _ => "20240305_120059";
     System.client := true;
     System.images := fun _ => Some "iVBORw0KGgo=";
     System.responses := fun _ => Returns (Some answer) |}.

(** A JSON string literal that names the three keys. *)
Definition quoted_json : string :=
  DQ ++ "crisp_description, main_topic and short_description are missing" ++ DQ.

(** The three keys and an [error] key besides. *)
Definition flagged_json : string :=
  json_object [("crisp_description", "Editing a proof script");
               ("main_topic", "Proof engineering");
               ("short_description", "Editing");
               ("error", "low confidence")].

Definition flagged_members : list (string * pyval) :=
  [("crisp_description", PStr "Editing a proof script");
   ("main_topic", PStr "Proof engineering");
   ("short_description", PStr "Editing");
   ("error", PStr "low confidence")].

Definition good_members : list (string * pyval) :=
  [("crisp_description", PStr "Editing a proof script");
   ("main_topic", PStr "Proof engineering");
   ("short_description", PStr "Editing")].

Definition edit_record : Log.activity (P := pandas) :=
  {| Log.timestamp := noon;
     Log.app_name := "Editor";
     Log.crisp_desc := PStr "Editing a proof script";
     Log.main_topic := PStr "Proof engineering";
     Log.short_desc := PStr "Editing";
     Log.screenshot_path := Some shot_path |}.

Definition mail_record : Log.activity (P := pandas) :=
  {| Log.timestamp := noon;
     Log.app_name := "Mail";
     Log.crisp_desc := PStr "Reading mail";
     Log.main_topic := PNone;
     Log.short_desc := PStr "Reading";
     Log.screenshot_path := None |}.

(** The topics of a working day: three distinct values, called again and
    again. *)
Definition day_topics : list pyval :=
  [PStr "vs code"; PNone; PStr "python programming"; PStr "vs code";
   PStr "python programming"; PNone; PStr "vs code"].

End MoreExamples.

(** * Properties *)

(** ** The tracking loop *)

Module MainFacts.
Import DataStorage Main.
Section Tracker.
Context {P : PandasLib}.
Variable MAX_RETRIES : Z.
Variable E : env.

Abbreviation attempts := (attempts MAX_RETRIES).
Abbreviation retries_left := (retries_left MAX_RETRIES).
Abbreviation capture_attempt := (capture_attempt E).
Abbreviation analysis_attempt := (analysis_attempt MAX_RETRIES E).
Abbreviation run_tracker_iteration := (run_tracker_iteration MAX_RETRIES E).
Abbreviation captured := (captured MAX_RETRIES E).
Abbreviation passes := (passes MAX_RETRIES E).
Abbreviation failure_record := (failure_record E).

Lemma In_attempts a : In a attempts <-> (Z.of_nat a < MAX_RETRIES)%Z.
Proof. unfold Main.attempts. rewrite in_seq. lia. Qed.

Lemma failed_capture_step a st :
  path_truthy (screenshot_path st) = false ->
  capture_fails (take_screenshot E a) ->
  exists st',
    capture_attempt a st = Next st'
    /\ path_truthy (screenshot_path st') = false
    /\ shots_taken st' = S (shots_taken st).
Proof.
  intros Hst Ha. unfold Main.capture_attempt.
  destruct (take_screenshot E a) as [p|e]; simpl in Ha.
  - rewrite Ha. eexists. split; [reflexivity | split; [exact Ha | reflexivity]].
  - eexists. split; [reflexivity | split; [exact Hst | reflexivity]].
Qed.

Lemma all_captures_fail xs st :
  path_truthy (screenshot_path st) = false ->
  (forall a, In a xs -> capture_fails (take_screenshot E a)) ->
  path_truthy (screenshot_path (for_each capture_attempt xs st)) = false
  /\ shots_taken (for_each capture_attempt xs st)
     = shots_taken st + List.length xs.
Proof.
  revert st. induction xs as [|a xs IH]; intros st Hst Hall.
  - simpl. split; [assumption | lia].
  - destruct (failed_capture_step a st Hst (Hall a (or_introl eq_refl)))
      as [st' [Hstep [Hp Hn]]].
    simpl. rewrite Hstep.
    destruct (IH st' Hp) as [H1 H2].
    + intros b Hb. apply Hall. now right.
    + split; [exact H1 | rewrite H2, Hn; simpl; lia].
Qed.

Lemma retryable_passes path j :
  retryable (analyze_screenshot E j) -> retries_left j = true -> passes path j.
Proof.
  intros H Hleft st. unfold Main.analysis_attempt, on_exception.
  inversion H as [e He | r Hf He | raw He].
  - rewrite Hleft. eauto.
  - rewrite Hf. eauto.
  - simpl. rewrite Hleft. simpl. eauto.
Qed.

Lemma passing_prefix path xs ys st :
  (forall j, In j xs -> passes path j) ->
  exists r,
    for_each (analysis_attempt path) (xs ++ ys)%list st
    = for_each (analysis_attempt path) ys
        {| analysis_result := r; file := file st;
           analyses_made := analyses_made st + List.length xs |}
    /\ (xs = [] -> r = analysis_result st).
Proof.
  revert st. induction xs as [|j xs IH]; intros st Hall.
  - exists (analysis_result st). simpl. rewrite Nat.add_0_r. destruct st; auto.
  - destruct (Hall j (or_introl eq_refl) st) as [r Hr].
    simpl. rewrite Hr.
    destruct (IH {| analysis_result := r; file := file st;
                    analyses_made := S (analyses_made st) |}) as [r' [Hr' _]].
    { intros i Hi. apply Hall. now right. }
    exists r'. rewrite Hr'. simpl. rewrite Nat.add_succ_r. split; [reflexivity | discriminate].
Qed.


Lemma attempts_split k :
  (Z.of_nat k < MAX_RETRIES)%Z ->
  attempts = (seq 0 k ++ k :: seq (S k) (Z.to_nat MAX_RETRIES - S k))%list.
Proof.
  intros Hk. unfold Main.attempts.
  replace (Z.to_nat MAX_RETRIES) with (k + S (Z.to_nat MAX_RETRIES - S k)) at 1 by lia.
  rewrite seq_app. reflexivity.
Qed.

Lemma retries_left_before k j :
  (Z.of_nat k < MAX_RETRIES)%Z -> j < k -> retries_left j = true.
Proof. intros Hk Hj. unfold Main.retries_left. apply Z.ltb_lt. lia. Qed.

Lemma captured_truthy p :
  captured p ->
  path_truthy
    (screenshot_path
       (for_each capture_attempt attempts {| screenshot_path := None; shots_taken := 0 |}))
  = true.
Proof.
  intros [Hp Hne]. rewrite Hp. simpl.
  destruct (String.eqb_spec p ""); [contradiction | reflexivity].
Qed.

Lemma save_activity_appended ts app crisp topic short path f :
  exists line, appended f (save_activity ts app crisp topic short path f) line.
Proof. eexists. unfold appended, save_activity. destruct f; reflexivity. Qed.

(** What one round of the classification phase can do. *)
Lemma analysis_attempt_cases path a st :
  (exists st', analysis_attempt path a st = Next st' /\ file st' = file st
               /\ analyses_made st' = S (analyses_made st))
  \/ (exists st', analysis_attempt path a st = Break st' /\ file st' = file st
                  /\ analyses_made st' = S (analyses_made st))
  \/ (exists st',
        (analysis_attempt path a st = Break st'
         \/ (analysis_attempt path a st = Next st' /\ retries_left a = false))
        /\ analysis_result st' = PNone
        /\ failure_record path (file st) (file st')
        /\ analyses_made st' = S (analyses_made st)).
Proof.
  unfold Main.analysis_attempt, on_exception, failure_record.
  repeat match goal with
         | |- context [match ?x with _ => _ end] => destruct x eqn:?
         end;
    try (left; eexists; split; [reflexivity | split; reflexivity]);
    try (right; left; eexists; split; [reflexivity | split; reflexivity]);
    right; right; eexists; (split; [ | split; [ | split ] ]);
      try (left; reflexivity); try (right; split; reflexivity);
      try reflexivity; simpl; eauto.
Qed.

(** The classification phase leaves the file alone, or ends with no
    result after one failure record. *)
Lemma analysis_loop_cases path len : forall start st,
  start + len = Z.to_nat MAX_RETRIES ->
  file (for_each (analysis_attempt path) (seq start len) st) = file st
  \/ (analysis_result (for_each (analysis_attempt path) (seq start len) st) = PNone
      /\ failure_record path (file st)
           (file (for_each (analysis_attempt path) (seq start len) st))).
Proof.
  induction len as [|len IH]; intros start st Hlen; simpl.
  - now left.
  - destruct (analysis_attempt_cases path start st)
      as [[st' [Hs [Hf _]]] | [[st' [Hs [Hf _]]] | [st' [Hs [Hr [Hrec _]]]]]].
    + rewrite Hs. rewrite <- Hf. apply IH. lia.
    + rewrite Hs. now left.
    + destruct Hs as [Hs | [Hs Hlast]]; rewrite Hs.
      * right. split; assumption.
      * assert (len = 0).
        { unfold Main.retries_left in Hlast. apply Z.ltb_ge in Hlast. lia. }
        subst len. simpl. right. split; assumption.
Qed.

Lemma all_analyses_falsy path xs : forall st,
  py_truthy (analysis_result st) = false ->
  (forall a, In a xs ->
     exists r, analyze_screenshot E a = Returns r /\ py_truthy r = false) ->
  py_truthy (analysis_result (for_each (analysis_attempt path) xs st)) = false
  /\ file (for_each (analysis_attempt path) xs st) = file st
  /\ analyses_made (for_each (analysis_attempt path) xs st)
     = analyses_made st + List.length xs.
Proof.
  induction xs as [|a xs IH]; intros st Hst Hall; simpl.
  - repeat split; [assumption | lia].
  - destruct (Hall a (or_introl eq_refl)) as [r [Hr Hf]].
    assert (Hstep : analysis_attempt path a st
                    = Next {| analysis_result := r; file := file st;
                              analyses_made := S (analyses_made st) |}).
    { unfold Main.analysis_attempt. now rewrite Hr, Hf. }
    rewrite Hstep.
    destruct (IH {| analysis_result := r; file := file st;
                    analyses_made := S (analyses_made st) |} Hf) as [H1 [H2 H3]].
    + intros b Hb. apply Hall. now right.
    + repeat split; [exact H1 | exact H2 | rewrite H3; simpl; lia].
Qed.

(** Each round makes one call, so the phase makes at least one when it
    has a round to run. *)
Lemma analysis_loop_calls path xs : forall st,
  xs <> [] ->
  analyses_made st < analyses_made (for_each (analysis_attempt path) xs st).
Proof.
  induction xs as [|a xs IH]; intros st Hne; [contradiction|].
  simpl.
  destruct (analysis_attempt_cases path a st)
    as [[st' [Hs [_ Hn]]] | [[st' [Hs [_ Hn]]] | [st' [Hs [_ [_ Hn]]]]]].
  - rewrite Hs. destruct xs as [|b xs]; [simpl; lia|].
    specialize (IH st'). assert (b :: xs <> []) by discriminate.
    specialize (IH H). lia.
  - rewrite Hs. lia.
  - destruct Hs as [Hs | [Hs _]]; rewrite Hs; [lia|].
    destruct xs as [|b xs]; [simpl; lia|].
    specialize (IH st'). assert (b :: xs <> []) by discriminate.
    specialize (IH H). lia.
Qed.


Lemma run_after_capture p f :
  captured p ->
  run_tracker_iteration f
  = let shot := for_each capture_attempt attempts
                  {| screenshot_path := None; shots_taken := 0 |} in
    let st := for_each (analysis_attempt (Some p)) attempts
                {| analysis_result := PNone; file := f; analyses_made := 0 |} in
    {| final_file := fst (save_step E (Some p) st); captures := shots_taken shot;
       analyses := analyses_made st; escaped := snd (save_step E (Some p) st) |}.
Proof.
  intros Hc. unfold Main.run_tracker_iteration.
  rewrite (captured_truthy p Hc). destruct Hc as [Hp _]. rewrite Hp. simpl.
  now destruct (save_step E (Some p) _).
Qed.

(** The hard-failure path of lines 91-93: [None] at every attempt leaves
    the file as it was. *)
Lemma none_every_attempt_writes_nothing p f :
  captured p ->
  (forall a, (Z.of_nat a < MAX_RETRIES)%Z -> analyze_screenshot E a = Returns PNone) ->
  final_file (run_tracker_iteration f) = f
  /\ analyses (run_tracker_iteration f) = Z.to_nat MAX_RETRIES
  /\ escaped (run_tracker_iteration f) = None.
Proof.
  intros Hc Hall. rewrite (run_after_capture p f Hc). simpl.
  destruct (all_analyses_falsy (Some p) attempts
              {| analysis_result := PNone; file := f; analyses_made := 0 |} eq_refl)
    as [Hr [Hf Hn]].
  { intros a Ha. exists PNone. split; [apply Hall, In_attempts, Ha | reflexivity]. }
  unfold save_step. rewrite Hr. simpl. rewrite Hf, Hn. simpl.
  unfold Main.attempts. now rewrite length_seq.
Qed.

(** The sibling path of lines 94-101: an exception at the last attempt
    writes the [Analysis Failed] record. *)
Lemma exception_at_last_attempt_is_recorded p f k e :
  captured p ->
  Z.of_nat k = (MAX_RETRIES - 1)%Z ->
  (forall j, j < k -> retryable (analyze_screenshot E j)) ->
  analyze_screenshot E k = Raises e ->
  final_file (run_tracker_iteration f)
  = save_activity (now E) (active_window E) (PStr "Analysis Failed") (PStr "Error")
      (PStr ("Exception during analysis: " ++ e)) (Some p) f.
Proof.
  intros Hc Hk Hbefore Hraise. rewrite (run_after_capture p f Hc). simpl.
  rewrite (attempts_split k) by lia.
  replace (Z.to_nat MAX_RETRIES - S k) with 0 by lia.
  destruct (passing_prefix (Some p) (seq 0 k) [k]
              {| analysis_result := PNone; file := f; analyses_made := 0 |})
    as [r [Hrun _]].
  { intros j Hj. apply in_seq in Hj. apply retryable_passes.
    - apply Hbefore. lia.
    - apply (retries_left_before k); lia. }
  simpl seq. rewrite Hrun. simpl.
  unfold Main.analysis_attempt, on_exception. rewrite Hraise.
  assert (Hlast : retries_left k = false).
  { unfold Main.retries_left. apply Z.ltb_ge. lia. }
  rewrite Hlast. reflexivity.
Qed.

(** C2.  When [take_screenshot] fails (returns [None] or an empty path,
    or raises) at every attempt of the capture phase, the iteration ends
    without calling [save_activity]: the file is the one it started with,
    so loading it gives as many rows as before, and no classification is
    attempted. *)
Theorem capture_failure_appends_nothing (f : store) :
  (forall a, (Z.of_nat a < MAX_RETRIES)%Z -> capture_fails (take_screenshot E a)) ->
  run_tracker_iteration f
  = {| final_file := f; captures := Z.to_nat MAX_RETRIES; analyses := 0;
       escaped := None |}
  /\ List.length (rows (load_activity_data (final_file (run_tracker_iteration f))))
     = List.length (rows (load_activity_data f)).
Proof.
  intros Hall.
  destruct (all_captures_fail attempts {| screenshot_path := None; shots_taken := 0 |}
              eq_refl) as [Hp Hn].
  { intros a Ha. apply Hall, In_attempts, Ha. }
  assert (Hrun : run_tracker_iteration f
                 = {| final_file := f; captures := Z.to_nat MAX_RETRIES;
                      analyses := 0; escaped := None |}).
  { unfold Main.run_tracker_iteration. rewrite Hp. simpl. rewrite Hn. simpl.
    unfold Main.attempts. now rewrite length_seq. }
  split; [exact Hrun | now rewrite Hrun].
Qed.

(** C3.  After a capture, let attempt [k] of the classification phase be
    reached (every earlier attempt was retried) and return the error
    result of [analyze_screenshot] with kind [kind] and raw content [raw].
    If the kind is not [JSONDecodeError], or [k] is the last attempt, the
    iteration writes exactly one record, built by [save_activity] from
    [Analysis Error], [Error], the raw content and the captured path (the
    line holds the file name of that path), and makes no further call.
    If the kind is [JSONDecodeError] and retries are left, the attempt
    writes nothing and the next attempt is made. *)
Theorem structural_error_record (f : store) (p : string) (k : nat) (kind raw : string) :
  captured p ->
  (Z.of_nat k < MAX_RETRIES)%Z ->
  (forall j, j < k -> retryable (analyze_screenshot E j)) ->
  analyze_screenshot E k = Returns (ImageAnalysis.error_dict kind raw) ->
  (kind <> "JSONDecodeError" \/ Z.of_nat k = (MAX_RETRIES - 1)%Z ->
     final_file (run_tracker_iteration f)
     = save_activity (now E) (active_window E) (PStr "Analysis Error") (PStr "Error")
         (PStr raw) (Some p) f
     /\ appended f (final_file (run_tracker_iteration f))
          [instant_str (now E); active_window E; "Analysis Error"; "Error"; raw;
           basename p]
     /\ analyses (run_tracker_iteration f) = S k
     /\ escaped (run_tracker_iteration f) = None)
  /\ (kind = "JSONDecodeError" /\ (Z.of_nat k < MAX_RETRIES - 1)%Z ->
      (forall st,
         analysis_attempt (Some p) k st
         = Next {| analysis_result := ImageAnalysis.error_dict kind raw;
                   file := file st; analyses_made := S (analyses_made st) |})
      /\ S k < analyses (run_tracker_iteration f)).
Proof.
  intros Hc Hk Hbefore Hres.
  assert (Hprefix : forall ys, exists r,
            for_each (analysis_attempt (Some p)) (seq 0 k ++ ys)%list
              {| analysis_result := PNone; file := f; analyses_made := 0 |}
            = for_each (analysis_attempt (Some p)) ys
                {| analysis_result := r; file := f; analyses_made := k |}).
  { intros ys.
    destruct (passing_prefix (Some p) (seq 0 k) ys
                {| analysis_result := PNone; file := f; analyses_made := 0 |})
      as [r [Hrun _]].
    - intros j Hj. apply in_seq in Hj. apply retryable_passes.
      + apply Hbefore. lia.
      + apply (retries_left_before k); lia.
    - exists r. rewrite Hrun. simpl. now rewrite length_seq. }
  assert (Hne : (p =? "") = false) by (destruct Hc as [_ Hne]; now apply String.eqb_neq).
  split.
  - intros Hfinal.
    assert (Hgate : ((kind =? "JSONDecodeError") && retries_left k)%bool = false).
    { destruct Hfinal as [Hkind | Hlast].
      - assert (Hn : (kind =? "JSONDecodeError") = false)
          by (apply String.eqb_neq; congruence).
        now rewrite Hn.
      - unfold Main.retries_left.
        assert (Hn : (Z.of_nat k <? MAX_RETRIES - 1)%Z = false) by (apply Z.ltb_ge; lia).
        rewrite Hn. apply andb_false_r. }
    rewrite (run_after_capture p f Hc). simpl.
    rewrite (attempts_split k Hk).
    destruct (Hprefix (k :: seq (S k) (Z.to_nat MAX_RETRIES - S k))) as [r Hrun].
    rewrite Hrun. simpl.
    unfold Main.analysis_attempt. rewrite Hres. simpl.
    unfold py_eq_str, is_PStr_of. rewrite Hgate. simpl.
    repeat split.
    unfold appended, save_activity. rewrite Hne. now destruct f.
  - intros [Hkind Hleft].
    assert (Hgate : ((kind =? "JSONDecodeError") && retries_left k)%bool = true).
    { subst kind. unfold Main.retries_left.
      assert (Hn : (Z.of_nat k <? MAX_RETRIES - 1)%Z = true) by (apply Z.ltb_lt; lia).
      now rewrite Hn. }
    assert (Hstep : forall st,
              analysis_attempt (Some p) k st
              = Next {| analysis_result := ImageAnalysis.error_dict kind raw;
                        file := file st; analyses_made := S (analyses_made st) |}).
    { intros st. unfold Main.analysis_attempt. rewrite Hres. simpl.
      unfold py_eq_str, is_PStr_of. now rewrite Hgate. }
    split; [exact Hstep|].
    rewrite (run_after_capture p f Hc). simpl.
    rewrite (attempts_split k Hk).
    destruct (Hprefix (k :: seq (S k) (Z.to_nat MAX_RETRIES - S k))) as [r Hrun].
    rewrite Hrun. simpl. rewrite Hstep. simpl.
    assert (Hmore : seq (S k) (Z.to_nat MAX_RETRIES - S k) <> []).
    { destruct (Z.to_nat MAX_RETRIES - S k) eqn:Hd; [lia | discriminate]. }
    pose proof (analysis_loop_calls (Some p) _
                  {| analysis_result := ImageAnalysis.error_dict kind raw;
                     file := f; analyses_made := S k |} Hmore) as Hcalls.
    simpl in Hcalls. exact Hcalls.
Qed.


(** C6.  One iteration appends at most one record.  Its file is the one
    it started with, or that file after one failure record of the
    classification phase, or that file after the one record of the save
    step: in each case at most one line was appended.  When attempt [k]
    is reached and returns a well-formed result (the three keys, no
    [error] key), exactly one record is appended, with the three values of
    the result. *)
Theorem at_most_one_record (f : store) :
  (final_file (run_tracker_iteration f) = f
   \/ failure_record
        (screenshot_path
           (for_each capture_attempt attempts
              {| screenshot_path := None; shots_taken := 0 |}))
        f (final_file (run_tracker_iteration f))
   \/ exists crisp topic short,
        final_file (run_tracker_iteration f)
        = save_activity (now E) (active_window E) crisp topic short
            (screenshot_path
               (for_each capture_attempt attempts
                  {| screenshot_path := None; shots_taken := 0 |}))
            f)
  /\ (final_file (run_tracker_iteration f) = f
      \/ exists line, appended f (final_file (run_tracker_iteration f)) line)
  /\ (forall p k d crisp topic short,
        captured p ->
        (Z.of_nat k < MAX_RETRIES)%Z ->
        (forall j, j < k -> retryable (analyze_screenshot E j)) ->
        analyze_screenshot E k = Returns (PDict d) ->
        dict_lookup "error" d = None ->
        dict_lookup "crisp_description" d = Some crisp ->
        dict_lookup "main_topic" d = Some topic ->
        dict_lookup "short_description" d = Some short ->
        final_file (run_tracker_iteration f)
        = save_activity (now E) (active_window E) crisp topic short (Some p) f
        /\ appended f (final_file (run_tracker_iteration f))
             [instant_str (now E); active_window E; to_csv_cell crisp;
              to_csv_cell topic; to_csv_cell short; basename p]).
Proof.
  assert (Hcases :
    final_file (run_tracker_iteration f) = f
    \/ failure_record
         (screenshot_path
            (for_each capture_attempt attempts
               {| screenshot_path := None; shots_taken := 0 |}))
         f (final_file (run_tracker_iteration f))
    \/ exists crisp topic short,
         final_file (run_tracker_iteration f)
         = save_activity (now E) (active_window E) crisp topic short
             (screenshot_path
                (for_each capture_attempt attempts
                   {| screenshot_path := None; shots_taken := 0 |}))
             f).
  { unfold Main.run_tracker_iteration.
    set (path := screenshot_path (for_each capture_attempt attempts _)).
    destruct (path_truthy path); simpl; [|now left].
    destruct (analysis_loop_cases path (Z.to_nat MAX_RETRIES) 0
                {| analysis_result := PNone; file := f; analyses_made := 0 |} eq_refl)
      as [Hsame | [Hnone Hrec]];
      fold attempts in *; simpl in *.
    - unfold save_step.
      set (st := for_each (analysis_attempt path) attempts _) in *.
      destruct (py_truthy (analysis_result st)); [|simpl; now left].
      destruct (py_contains "error" (analysis_result st)) as [[|]|e];
        [simpl; now left | | simpl; now left].
      destruct (py_get (analysis_result st) "crisp_description" _) as [crisp|];
        [|simpl; now left].
      destruct (py_get (analysis_result st) "main_topic" _) as [topic|];
        [|simpl; now left].
      destruct (py_get (analysis_result st) "short_description" _) as [short|];
        [|simpl; now left].
      simpl. right. right. exists crisp, topic, short. now rewrite Hsame.
    - unfold save_step. rewrite Hnone. simpl. right. now left. }
  split; [exact Hcases|]. split.
  - destruct Hcases as [H | [[crisp [short [_ H]]] | [crisp [topic [short H]]]]].
    + now left.
    + right. rewrite H. apply save_activity_appended.
    + right. rewrite H. apply save_activity_appended.
  - intros p k d crisp topic short Hc Hk Hbefore Hres Herr Hcrisp Htopic Hshort.
    assert (Hne : (p =? "") = false)
      by (destruct Hc as [_ Hne]; now apply String.eqb_neq).
    assert (Hfinal : final_file (run_tracker_iteration f)
                     = save_activity (now E) (active_window E) crisp topic short
                         (Some p) f).
    { rewrite (run_after_capture p f Hc). simpl.
      rewrite (attempts_split k Hk).
      destruct (passing_prefix (Some p) (seq 0 k)
                  (k :: seq (S k) (Z.to_nat MAX_RETRIES - S k))
                  {| analysis_result := PNone; file := f; analyses_made := 0 |})
        as [r [Hrun _]].
      { intros j Hj. apply in_seq in Hj. apply retryable_passes.
        - apply Hbefore. lia.
        - apply (retries_left_before k); lia. }
      rewrite Hrun. simpl.
      assert (Htruthy : py_truthy (PDict d) = true).
      { destruct d; [discriminate | reflexivity]. }
      unfold Main.analysis_attempt. rewrite Hres, Htruthy. simpl. rewrite Herr.
      unfold save_step. simpl analysis_result. rewrite Htruthy. simpl.
      now rewrite Herr, Hcrisp, Htopic, Hshort. }
    split; [exact Hfinal|].
    rewrite Hfinal. unfold appended, save_activity. rewrite Hne. now destruct f.
Qed.

End Tracker.

Import Examples.

(** C1.  The request fails at each of the three attempts, so
    [analyze_screenshot] returns [None] three times: the iteration makes
    its three calls and leaves the file as it was, with no
    [Analysis Failed] record.  An exception reaching the loop at the last
    attempt is what writes that record. *)
Theorem hard_failure_leaves_no_record :
  (forall f : store,
     final_file (Main.run_tracker_iteration 3 (platform capture_ok api_down) f) = f
     /\ analyses (Main.run_tracker_iteration 3 (platform capture_ok api_down) f) = 3)
  /\ (forall f : store,
        final_file
          (Main.run_tracker_iteration 3
             (platform capture_ok api_raises) f)
        = save_activity (P := Reference.pandas) noon "Editor" (PStr "Analysis Failed")
            (PStr "Error")
            (PStr "Exception during analysis: Connection error.")
            (Some shot_path) f).
Proof.
  split; intros f.
  - destruct (none_every_attempt_writes_nothing 3 (platform capture_ok api_down)
                shot_path f) as [Hf [Hn _]].
    + split; [reflexivity | discriminate].
    + intros a _. reflexivity.
    + split; [exact Hf | exact Hn].
  - apply (exception_at_last_attempt_is_recorded 3
             (platform capture_ok api_raises)
             shot_path f 2 "Connection error.").
    + split; [reflexivity | discriminate].
    + reflexivity.
    + intros j _. constructor.
    + reflexivity.
Qed.

Lemma capture_failure_appends_nothing_witness :
  Main.run_tracker_iteration 3 (platform capture_down api_down) None
  = {| final_file := None; captures := 3; analyses := 0; escaped := None |}.
Proof.
  apply (capture_failure_appends_nothing 3 (platform capture_down api_down) None).
  intros [|a] _; simpl; [exact I | reflexivity].
Defined.

Lemma structural_error_record_witness :
  final_file (Main.run_tracker_iteration 2 (platform capture_ok api_malformed) None)
  = Some [COLUMNS;
          ["2024-03-05 12:00:59"; "Editor"; "Analysis Error"; "Error"; "not json";
           "screenshot_20240305_120059.png"]].
Proof.
  destruct (structural_error_record 2 (platform capture_ok api_malformed) None
              shot_path 1 "JSONDecodeError" "not json") as [Hlast _].
  - split; [reflexivity | discriminate].
  - reflexivity.
  - intros j _. apply retry_json.
  - reflexivity.
  - destruct Hlast as [Hfinal _]; [right; reflexivity | exact Hfinal].
Defined.

Lemma at_most_one_record_witness :
  final_file (Main.run_tracker_iteration 2 (platform capture_ok api_second_try) None)
  = Some [COLUMNS;
          ["2024-03-05 12:00:59"; "Editor"; "Editing a proof script";
           "Proof engineering"; "Editing"; "screenshot_20240305_120059.png"]].
Proof.
  destruct (at_most_one_record 2 (platform capture_ok api_second_try) None)
    as [_ [_ Hone]].
  destruct (Hone shot_path 1
              [("crisp_description", PStr "Editing a proof script");
               ("main_topic", PStr "Proof engineering");
               ("short_description", PStr "Editing")]
              (PStr "Editing a proof script")
              (PStr "Proof engineering") (PStr "Editing")) as [Hfinal _].
  - split; [reflexivity | discriminate].
  - reflexivity.
  - intros [|j] Hj; [apply retry_json | lia].
  - reflexivity.
  - reflexivity.
  - reflexivity.
  - reflexivity.
  - reflexivity.
  - exact Hfinal.
Defined.

End MainFacts.

(** ** The activity store *)

Module DataStorageFacts.
Import DataStorage.
Section Store.
Context {P : PandasLib}.









End Store.

Import Examples Reference.





End DataStorageFacts.

(** ** The classification client *)

Module ImageAnalysisFacts.
Import ImageAnalysis Examples.

Section Fences.
Context {J : JsonLib}.

Lemma lstrip_by_length p s : String.length (lstrip_by p s) <= String.length s.
Proof.
  induction s as [|c s IH]; simpl; [lia|].
  destruct (p c); simpl; lia.
Qed.

Lemma starts_clear_head p c s : lstrip_by p (String c s) = String c s -> p c = false.
Proof.
  simpl. destruct (p c); [|reflexivity].
  intros H. pose proof (lstrip_by_length p s) as Hlen.
  rewrite H in Hlen. simpl in Hlen. lia.
Qed.

Lemma lstrip_by_prefix p pre s :
  lstrip_by p pre = "" -> lstrip_by p (pre ++ s) = lstrip_by p s.
Proof.
  induction pre as [|c pre IH]; simpl; [reflexivity|].
  destruct (p c); [exact IH | discriminate].
Qed.

Lemma rstrip_by_suffix p body suf :
  rstrip_by p suf = "" -> rstrip_by p body = body -> rstrip_by p (body ++ suf) = body.
Proof.
  intros Hsuf. induction body as [|c body IH]; simpl; [intros _; exact Hsuf|].
  destruct (rstrip_by p body) as [|k kept] eqn:Hbody.
  - destruct (p c); [discriminate|]. intros [= <-]. simpl. now rewrite Hsuf.
  - intros [= Hkept]. rewrite IH by exact Hkept. now rewrite <- Hkept.
Qed.

(** Where the slip does no harm: when the text is the opening marker, a
    body and the closing fence, and the body neither starts nor ends with
    one of the characters of the marker, the cleaning leaves the body
    without its surrounding white space. *)
Lemma clean_fences_wrapped body :
  starts_clear "```json" body ->
  ends_clear "```json" body ->
  clean_fences ("```json" ++ body ++ "```") = py_strip body.
Proof.
  unfold starts_clear, ends_clear. intros Hstart Hend.
  unfold clean_fences.
  assert (Hp : String.prefix "```json" ("```json" ++ body ++ "```") = true).
  { simpl. now destruct (body ++ "```"). }
  rewrite Hp. f_equal. unfold py_strip_chars.
  rewrite (lstrip_by_prefix _ "```json") by reflexivity.
  destruct body as [|c body].
  - reflexivity.
  - pose proof (starts_clear_head _ c body Hstart) as Hc.
    assert (Hl : lstrip_by (ascii_in "```json") (String c body ++ "```")
                 = String c body ++ "```").
    { change (String c body ++ "```") with (String c (body ++ "```")).
      cbn [lstrip_by]. now rewrite Hc. }
    rewrite Hl. now apply rstrip_by_suffix.
Qed.

Lemma clean_fences_bare body :
  starts_clear "```json" body -> clean_fences body = body.
Proof.
  unfold starts_clear. intros Hstart. unfold clean_fences.
  destruct body as [|c body]; [reflexivity|].
  pose proof (starts_clear_head _ c body Hstart) as Hc.
  assert (Hp : forall m, String.prefix (String "`"%char m) (String c body) = false).
  { intros m. cbn [String.prefix].
    destruct (ascii_dec "`"%char c) as [<-|]; [discriminate | reflexivity]. }
  now rewrite !Hp.
Qed.

(** For such a text, and a decoder that does not mind white space around
    the value, the fenced answer and the bare one are classified alike. *)
Lemma wrapped_answer_classified_alike body :
  starts_clear "```json" body ->
  ends_clear "```json" body ->
  json_loads (py_strip body) = json_loads body ->
  same_classification (parse_response ("```json" ++ body ++ "```"))
    (parse_response body).
Proof.
  intros Hstart Hend Hws. unfold parse_response.
  rewrite (clean_fences_wrapped body Hstart Hend), (clean_fences_bare body Hstart), Hws.
  destruct (json_loads body) as [v|].
  - destruct (all_keys_in REQUIRED_KEYS v) as [[|]|e].
    + now left.
    + right. eauto.
    + now left.
  - right. eauto.
Qed.

End Fences.

(** C8.  The answer with the three keys parses to the three-key result
    when it is bare, and when it stands between a [```json] line and a
    closing fence that ends the text.  With one line feed after the closing
    fence, [strip] takes no character off the end, the closing fence stays,
    and the same answer is classified as a [JSONDecodeError].  Next to the
    opening fence, [strip] also eats the first letter of [null]. *)
Theorem fenced_answer_with_trailing_newline :
  parse_response (J := Reference.json) good_json = good_result
  /\ parse_response (J := Reference.json) ("```json" ++ LF ++ good_json ++ LF ++ "```")
     = good_result
  /\ parse_response (J := Reference.json)
       ("```json" ++ LF ++ good_json ++ LF ++ "```" ++ LF)
     = error_dict "JSONDecodeError" (good_json ++ LF ++ "```")
  /\ clean_fences "```jsonnull```" = "ull".
Proof. split; [|split; [|split]]; vm_compute; reflexivity. Qed.

End ImageAnalysisFacts.

(** ** The topic normaliser *)

Module TopicNormalizerFacts.
Import TopicNormalizer.
Section Normalizer.
Variable client : bool.
Variable remote : nat -> string -> outcome (option string).

Abbreviation normalize_topic := (normalize_topic client remote).
Abbreviation normalize_body := (normalize_body client remote).
Abbreviation run_calls := (run_calls client remote).
Abbreviation stays_cached := (stays_cached client remote).

Lemma key_eqb_eq a b : key_eqb a b = true -> a = b.
Proof.
  destruct a, b; simpl; try discriminate; intros H.
  - reflexivity.
  - f_equal. now apply Bool.eqb_prop.
  - f_equal. now apply Z.eqb_eq.
  - f_equal. now apply String.eqb_eq.
Qed.

Lemma key_eqb_refl k : hashable k = true -> key_eqb k k = true.
Proof.
  destruct k; simpl; try discriminate; intros _.
  - reflexivity.
  - apply Bool.eqb_reflx.
  - apply Z.eqb_refl.
  - apply String.eqb_refl.
Qed.

Lemma cache_find_In k c v :
  cache_find k c = Some v -> In (k, v) c.
Proof.
  induction c as [|[k' v'] c IH]; simpl; [discriminate|].
  destruct (key_eqb k' k) eqn:Hk.
  - intros [= ->]. apply key_eqb_eq in Hk. subst. now left.
  - intros H. right. now apply IH.
Qed.

Lemma cache_remove_incl k c : incl (cache_remove k c) c.
Proof.
  induction c as [|[k' v'] c IH]; simpl; [apply incl_refl|].
  destruct (key_eqb k' k).
  - apply incl_tl, incl_refl.
  - intros x [<- | Hx]; [now left | right; now apply IH].
Qed.

Lemma removelast_incl {A} (l : list A) : incl (removelast l) l.
Proof.
  induction l as [|a l IH]; [apply incl_refl|].
  simpl. destruct l as [|b l]; [intros x []|].
  intros x [<- | Hx]; [now left | right; now apply IH].
Qed.

Lemma cache_remove_length k c v :
  cache_find k c = Some v -> S (List.length (cache_remove k c)) = List.length c.
Proof.
  induction c as [|[k' v'] c IH]; simpl; [discriminate|].
  destruct (key_eqb k' k); [reflexivity|].
  intros H. simpl. now rewrite IH.
Qed.

Lemma removelast_length {A} (l : list A) :
  l <> [] -> S (List.length (removelast l)) = List.length l.
Proof.
  induction l as [|a l IH]; [contradiction|]. intros _.
  destruct l as [|b l]; [reflexivity|].
  change (removelast (a :: b :: l)) with (a :: removelast (b :: l)).
  cbn [List.length]. f_equal. apply IH. discriminate.
Qed.

Lemma cache_find_remove_other t k c :
  key_eqb t k = false -> hashable k = true ->
  cache_find k (cache_remove t c) = cache_find k c.
Proof.
  intros Htk Hk. induction c as [|[k' v'] c IH]; simpl; [reflexivity|].
  destruct (key_eqb k' t) eqn:Ht.
  - apply key_eqb_eq in Ht. subst k'. now rewrite Htk.
  - simpl. now rewrite IH.
Qed.

Lemma cache_find_removelast k c v :
  cache_find k c = Some v ->
  cache_find k (removelast c) = Some v \/ cache_find k (removelast c) = None.
Proof.
  induction c as [|[k' v'] c IH]; [discriminate|].
  destruct c as [|e c].
  - intros _. now right.
  - change (removelast ((k', v') :: e :: c)) with ((k', v') :: removelast (e :: c)).
    cbn [cache_find]. destruct (key_eqb k' k); [now left | apply IH].
Qed.

(** The capacity bound holds after every call. *)
Lemma capacity_step t st :
  List.length (cache st) <= MAXSIZE ->
  List.length (cache (snd (normalize_topic t st))) <= MAXSIZE.
Proof.
  intros Hcap. unfold TopicNormalizer.normalize_topic.
  destruct (hashable t); cbn [negb]; [|exact Hcap].
  destruct (cache_find t (cache st)) as [v|] eqn:Hfind.
  - pose proof (cache_remove_length t (cache st) v Hfind).
    cbn [snd cache List.length]. lia.
  - destruct (normalize_body t (requests st)) as [v n].
    destruct (MAXSIZE <=? List.length (cache st))%nat eqn:Hfull;
      cbn [snd cache List.length].
    + apply Nat.leb_le in Hfull.
      assert (Hne : cache st <> []).
      { intros Hnil. rewrite Hnil in Hfull. unfold MAXSIZE in Hfull.
        cbn [List.length] in Hfull. lia. }
      pose proof (removelast_length (cache st) Hne). lia.
    + apply Nat.leb_gt in Hfull. lia.
Qed.

Lemma capacity_run topics : forall st,
  List.length (cache st) <= MAXSIZE ->
  List.length (cache (run_calls topics st)) <= MAXSIZE.
Proof.
  induction topics as [|t topics IH]; intros st Hcap; simpl; [exact Hcap|].
  apply IH, capacity_step, Hcap.
Qed.

Lemma body_requests t n :
  n <= snd (normalize_body t n) <= S n.
Proof.
  unfold TopicNormalizer.normalize_body.
  destruct client; simpl; [|lia].
  destruct (degenerate t); simpl; [lia|].
  destruct t; simpl; try lia.
  destruct (remote n s) as [[c|]|e]; simpl; lia.
Qed.

(** After a call for a hashable topic its entry heads the cache, with the
    value the call returned. *)
Lemma call_heads_cache t st :
  hashable t = true ->
  exists v rest,
    fst (normalize_topic t st) = Returns v
    /\ cache (snd (normalize_topic t st)) = (t, v) :: rest.
Proof.
  intros Ht. unfold TopicNormalizer.normalize_topic. rewrite Ht. simpl.
  destruct (cache_find t (cache st)) as [v|].
  - simpl. eauto.
  - destruct (normalize_body t (requests st)) as [v n]. simpl. eauto.
Qed.

(** A call for a cached topic returns the cached value and makes no
    request. *)
Lemma cached_call t v st :
  hashable t = true ->
  cache_find t (cache st) = Some v ->
  fst (normalize_topic t st) = Returns v
  /\ requests (snd (normalize_topic t st)) = requests st.
Proof.
  intros Ht Hfind. unfold TopicNormalizer.normalize_topic.
  rewrite Ht, Hfind. simpl. split; reflexivity.
Qed.


(** What the body returns for a key holds of every entry a call leaves in
    the cache. *)
Lemma entries_step (Q : pyval -> pyval -> Prop) t st :
  (forall k n, Q k (fst (normalize_body k n))) ->
  (forall k v, In (k, v) (cache st) -> Q k v) ->
  forall k v, In (k, v) (cache (snd (normalize_topic t st))) -> Q k v.
Proof.
  intros Hbody Hinv k v. unfold TopicNormalizer.normalize_topic.
  destruct (hashable t); cbn [negb]; [|apply Hinv].
  destruct (cache_find t (cache st)) as [w|] eqn:Hfind.
  - cbn [snd cache]. intros [[= <- <-] | Hin].
    + apply Hinv. now apply cache_find_In.
    + apply Hinv. now apply (cache_remove_incl t).
  - pose proof (Hbody t (requests st)) as Hnew.
    destruct (normalize_body t (requests st)) as [w n].
    cbn [snd cache]. intros [[= <- <-] | Hin]; [exact Hnew|].
    apply Hinv. destruct (MAXSIZE <=? List.length (cache st))%nat;
      [now apply removelast_incl | exact Hin].
Qed.

Lemma entries_run (Q : pyval -> pyval -> Prop) topics :
  (forall k n, Q k (fst (normalize_body k n))) ->
  forall st,
    (forall k v, In (k, v) (cache st) -> Q k v) ->
    forall k v, In (k, v) (cache (run_calls topics st)) -> Q k v.
Proof.
  intros Hbody. induction topics as [|t topics IH]; intros st Hinv; simpl.
  - exact Hinv.
  - apply IH. now apply entries_step.
Qed.

Lemma body_of_text_is_text k n :
  is_str k = true -> is_str (fst (normalize_body k n)) = true.
Proof.
  intros Hk. unfold TopicNormalizer.normalize_body.
  destruct client; simpl; [|exact Hk].
  destruct (degenerate k); [reflexivity|].
  destruct k; try discriminate.
  now destruct (remote n s) as [[c|]|e].
Qed.

Lemma key_eqb_hashable a b : key_eqb a b = true -> hashable b = true.
Proof. destruct a, b; simpl; try discriminate; reflexivity. Qed.

Lemma cache_find_hashable k c v : cache_find k c = Some v -> hashable k = true.
Proof.
  induction c as [|[k' v'] c IH]; simpl; [discriminate|].
  destruct (key_eqb k' k) eqn:Hk; [intros _; now apply (key_eqb_hashable k') | exact IH].
Qed.

(** A call leaves the value cached for another key as it is, unless it
    evicts the key. *)
Lemma call_keeps_value t k v st :
  cache_find k (cache st) = Some v ->
  cache_find k (cache (snd (normalize_topic t st))) = Some v
  \/ cache_find k (cache (snd (normalize_topic t st))) = None.
Proof.
  intros Hfind.
  pose proof (cache_find_hashable k (cache st) v Hfind) as Hk.
  unfold TopicNormalizer.normalize_topic.
  destruct (hashable t) eqn:Ht; cbn [negb]; [|now left].
  destruct (cache_find t (cache st)) as [w|] eqn:Hhit.
  - cbn [snd cache cache_find].
    destruct (key_eqb t k) eqn:Htk.
    + apply key_eqb_eq in Htk. subst t. left. congruence.
    + left. now rewrite cache_find_remove_other.
  - destruct (normalize_body t (requests st)) as [w n].
    cbn [snd cache cache_find].
    destruct (key_eqb t k) eqn:Htk.
    + apply key_eqb_eq in Htk. subst t. congruence.
    + destruct (MAXSIZE <=? List.length (cache st))%nat;
        [now apply cache_find_removelast | now left].
Qed.


Lemma cache_find_none_notin t c :
  hashable t = true -> cache_find t c = None -> ~ In t (map fst c).
Proof.
  intros Ht. induction c as [|[k' v'] c IH]; simpl; [tauto|].
  destruct (key_eqb k' t) eqn:Hk; [discriminate|].
  intros Hnone [-> | Hin]; [|now apply IH].
  rewrite (key_eqb_refl t Ht) in Hk. discriminate.
Qed.

Lemma keys_incl (c c' : list (pyval * pyval)) :
  incl c c' -> incl (map fst c) (map fst c').
Proof.
  intros Hincl k Hk. apply in_map_iff in Hk. destruct Hk as [[k' v] [<- Hin]].
  apply in_map_iff. exists (k', v). split; [reflexivity | now apply Hincl].
Qed.

Lemma cache_remove_nodup t c :
  NoDup (map fst c) -> NoDup (map fst (cache_remove t c)).
Proof.
  induction c as [|[k' v'] c IH]; simpl; [trivial|].
  intros Hnd. inversion Hnd as [|? ? Hnotin Hrest]; subst.
  destruct (key_eqb k' t); [exact Hrest|].
  simpl. constructor; [|now apply IH].
  intros Hin. apply Hnotin. now apply (keys_incl _ _ (cache_remove_incl t c)).
Qed.

Lemma cache_remove_notin t c :
  hashable t = true -> NoDup (map fst c) -> ~ In t (map fst (cache_remove t c)).
Proof.
  intros Ht. induction c as [|[k' v'] c IH]; simpl; [tauto|].
  intros Hnd. inversion Hnd as [|? ? Hnotin Hrest]; subst.
  destruct (key_eqb k' t) eqn:Hk.
  - apply key_eqb_eq in Hk. now subst k'.
  - simpl. intros [-> | Hin]; [|now apply IH].
    rewrite (key_eqb_refl t Ht) in Hk. discriminate.
Qed.

Lemma removelast_nodup (c : list (pyval * pyval)) :
  NoDup (map fst c) -> NoDup (map fst (removelast c)).
Proof.
  induction c as [|[k' v'] c IH]; [trivial|].
  intros Hnd. inversion Hnd as [|? ? Hnotin Hrest]; subst.
  destruct c as [|e c]; [constructor|].
  change (removelast ((k', v') :: e :: c)) with ((k', v') :: removelast (e :: c)).
  cbn [map fst]. constructor; [|now apply IH].
  intros Hin. apply Hnotin.
  now apply (keys_incl _ _ (removelast_incl (e :: c))).
Qed.

(** The cached topics are distinct after every call. *)
Lemma distinct_step t st :
  NoDup (map fst (cache st)) ->
  NoDup (map fst (cache (snd (normalize_topic t st)))).
Proof.
  intros Hnd. unfold TopicNormalizer.normalize_topic.
  destruct (hashable t) eqn:Ht; cbn [negb]; [|exact Hnd].
  destruct (cache_find t (cache st)) as [v|] eqn:Hfind.
  - cbn [snd cache map fst]. constructor.
    + now apply cache_remove_notin.
    + now apply cache_remove_nodup.
  - destruct (normalize_body t (requests st)) as [v n].
    cbn [snd cache map fst]. constructor.
    + intros Hin. apply (cache_find_none_notin t (cache st) Ht Hfind).
      destruct (MAXSIZE <=? List.length (cache st))%nat; [|exact Hin].
      now apply (keys_incl _ _ (removelast_incl (cache st))).
    + destruct (MAXSIZE <=? List.length (cache st))%nat;
        [now apply removelast_nodup | exact Hnd].
Qed.

Lemma distinct_run topics : forall st,
  NoDup (map fst (cache st)) ->
  NoDup (map fst (cache (run_calls topics st))).
Proof.
  induction topics as [|t topics IH]; intros st Hnd; simpl; [exact Hnd|].
  apply IH, distinct_step, Hnd.
Qed.

Lemma value_persists k v later : forall st,
  cache_find k (cache st) = Some v ->
  stays_cached k later st ->
  cache_find k (cache (run_calls later st)) = Some v.
Proof.
  induction later as [|t later IH]; intros st Hfind Hstays; simpl; [exact Hfind|].
  destruct Hstays as [_ Hrest]. apply IH; [|exact Hrest].
  destruct (call_keeps_value t k v st Hfind) as [H | H]; [exact H|].
  destruct later; destruct Hrest as [Hstill _]; contradiction.
Qed.

Lemma behind_find others k c :
  hashable k = true -> behind others k c -> cache_find k c <> None.
Proof.
  intros Hk [front [back [v [-> _]]]].
  induction front as [|[a va] front IH]; simpl.
  - now rewrite (key_eqb_refl k Hk).
  - destruct (key_eqb a k); [discriminate | exact IH].
Qed.

Lemma cache_remove_behind others t k c :
  key_eqb k t = false -> behind others k c -> behind others k (cache_remove t c).
Proof.
  intros Hkt [front [back [v [-> Hincl]]]].
  induction front as [|[a va] front IH]; simpl.
  - rewrite Hkt. exists [], (cache_remove t back), v. split; [reflexivity | exact Hincl].
  - destruct (key_eqb a t).
    + exists front, back, v. split; [reflexivity|].
      intros x Hx. apply Hincl. now right.
    + destruct IH as [front' [back' [v' [Heq Hincl']]]].
      { intros x Hx. apply Hincl. now right. }
      exists ((a, va) :: front'), back', v'. split; [simpl; now rewrite Heq|].
      intros x [<- | Hx]; [apply Hincl; now left | now apply Hincl'].
Qed.

(** A call leaves the entry of [k] in the cache, behind topics of
    [others], when there are fewer than [MAXSIZE] of these. *)
Lemma call_keeps_behind others k t st :
  NoDup others -> List.length others < MAXSIZE ->
  hashable k = true ->
  (hashable t = true -> t <> k -> In t others) ->
  NoDup (map fst (cache st)) ->
  behind others k (cache st) ->
  behind others k (cache (snd (normalize_topic t st))).
Proof.
  intros Hnd Hfew Hk Ht Hdistinct Hbehind.
  unfold TopicNormalizer.normalize_topic.
  destruct (hashable t) eqn:Hhash; cbn [negb]; [|exact Hbehind].
  destruct (key_eqb t k) eqn:Htk.
  - apply key_eqb_eq in Htk. subst t.
    destruct (cache_find k (cache st)) as [w|] eqn:Hfind.
    + cbn [snd cache]. exists [], (cache_remove k (cache st)), w.
      split; [reflexivity | intros x []].
    + now destruct (behind_find others k (cache st) Hk Hbehind).
  - assert (Hne : t <> k).
    { intros ->. rewrite (key_eqb_refl k Hk) in Htk. discriminate. }
    assert (Hkt : key_eqb k t = false).
    { destruct (key_eqb k t) eqn:H; [|reflexivity].
      apply key_eqb_eq in H. now destruct Hne. }
    specialize (Ht eq_refl Hne).
    destruct (cache_find t (cache st)) as [w|] eqn:Hfind.
    + cbn [snd cache].
      destruct (cache_remove_behind others t k (cache st) Hkt Hbehind)
        as [front [back [v [Heq Hincl]]]].
      exists ((t, w) :: front), back, v. split; [simpl; now rewrite Heq|].
      intros x [<- | Hx]; [exact Ht | now apply Hincl].
    + destruct (normalize_body t (requests st)) as [w n]. cbn [snd cache].
      destruct Hbehind as [front [back [v [Heq Hincl]]]].
      destruct (MAXSIZE <=? List.length (cache st))%nat eqn:Hfull.
      * apply Nat.leb_le in Hfull.
        destruct back as [|b back].
        { exfalso.
          assert (Hlen : List.length (t :: map fst front) <= List.length others).
          { apply NoDup_incl_length.
            - constructor.
              + intros Hin. apply (cache_find_none_notin t (cache st) Hhash Hfind).
                rewrite Heq, map_app. apply in_or_app. now left.
              + rewrite Heq, map_app in Hdistinct.
                now apply NoDup_app_remove_r in Hdistinct.
            - intros x [<- | Hx]; [exact Ht | now apply Hincl]. }
          rewrite Heq, length_app in Hfull. simpl in Hlen, Hfull.
          rewrite length_map in Hlen. lia. }
        exists ((t, w) :: front), (removelast (b :: back)), v. split.
        -- rewrite Heq, removelast_app by discriminate. reflexivity.
        -- intros x [<- | Hx]; [exact Ht | now apply Hincl].
      * exists ((t, w) :: front), back, v. split; [now rewrite Heq|].
        intros x [<- | Hx]; [exact Ht | now apply Hincl].
Qed.

(** Least recently used, with room for [MAXSIZE]: an entry outlives any
    run of calls that names fewer than [MAXSIZE] other topics. *)
Lemma few_others_stays k later : forall st,
  hashable k = true ->
  few_others k later ->
  NoDup (map fst (cache st)) ->
  (exists v rest, cache st = (k, v) :: rest) ->
  stays_cached k later st.
Proof.
  intros st Hk [others [Hnd [Hfew Hcover]]] Hdistinct [v [rest Hhead]].
  assert (Hbehind : behind others k (cache st)).
  { exists [], rest, v. split; [exact Hhead | intros x []]. }
  clear Hhead. revert st Hdistinct Hbehind.
  induction later as [|t later IH]; intros st Hdistinct Hbehind.
  - split; [now apply (behind_find others) | exact I].
  - split; [now apply (behind_find others)|].
    apply IH.
    + intros x Hx. apply Hcover. now right.
    + now apply distinct_step.
    + apply call_keeps_behind; try assumption.
      apply Hcover. now left.
Qed.

(** C9.  In any state the process can reach, two calls in a row with the
    same text return the same text, and the second makes no request: at
    most one request is made for the two.  The same holds when other calls
    come between the two, as long as they name fewer than 100 distinct
    other topics.  The cache never holds more than 100 entries, and their
    topics are distinct.
    A hit moves its entry to the front; a miss on a full cache drops the
    entry at the back, the least recently used one, and puts the new entry
    in front. *)
Theorem repeated_topic_hits_cache (pre : list pyval) (s : string) :
  (exists t,
     fst (normalize_topic (PStr s) (run_calls pre initial)) = Returns (PStr t)
     /\ fst (normalize_topic (PStr s)
               (snd (normalize_topic (PStr s) (run_calls pre initial))))
        = Returns (PStr t))
  /\ requests (snd (normalize_topic (PStr s)
                      (snd (normalize_topic (PStr s) (run_calls pre initial)))))
     = requests (snd (normalize_topic (PStr s) (run_calls pre initial)))
  /\ requests (snd (normalize_topic (PStr s) (run_calls pre initial)))
     <= S (requests (run_calls pre initial))
  /\ (forall later,
        few_others (PStr s) later ->
        fst (normalize_topic (PStr s)
               (run_calls later
                  (snd (normalize_topic (PStr s) (run_calls pre initial)))))
        = fst (normalize_topic (PStr s) (run_calls pre initial))
        /\ requests
             (snd (normalize_topic (PStr s)
                     (run_calls later
                        (snd (normalize_topic (PStr s) (run_calls pre initial))))))
           = requests
               (run_calls later
                  (snd (normalize_topic (PStr s) (run_calls pre initial)))))
  /\ List.length (cache (run_calls pre initial)) <= 100
  /\ NoDup (map fst (cache (run_calls pre initial)))
  /\ (forall t v,
        hashable t = true ->
        cache_find t (cache (run_calls pre initial)) = Some v ->
        cache (snd (normalize_topic t (run_calls pre initial)))
        = (t, v) :: cache_remove t (cache (run_calls pre initial)))
  /\ (forall t,
        hashable t = true ->
        cache_find t (cache (run_calls pre initial)) = None ->
        List.length (cache (run_calls pre initial)) = 100 ->
        cache (snd (normalize_topic t (run_calls pre initial)))
        = (t, fst (normalize_body t (requests (run_calls pre initial))))
            :: removelast (cache (run_calls pre initial))).
Proof.
  set (st := run_calls pre initial).
  destruct (call_heads_cache (PStr s) st eq_refl) as [v [rest [Hret Hhead]]].
  assert (Hfind : cache_find (PStr s) (cache (snd (normalize_topic (PStr s) st)))
                  = Some v).
  { rewrite Hhead. simpl. now rewrite String.eqb_refl. }
  destruct (cached_call (PStr s) v _ eq_refl Hfind) as [Hret2 Hreq2].
  assert (Htext : is_str v = true).
  { apply (entries_run (fun k w => is_str k = true -> is_str w = true)
             (pre ++ [PStr s])%list body_of_text_is_text initial)
      with (k := PStr s); [intros k w [] | | reflexivity].
    replace (run_calls (pre ++ [PStr s]) initial)
      with (snd (normalize_topic (PStr s) st)).
    - rewrite Hhead. now left.
    - subst st. clear. generalize initial.
      induction pre as [|t pre IH]; intros st0; simpl; [reflexivity | apply IH]. }
  destruct v as [| | |t| |]; try discriminate.
  split; [exists t; split; assumption|].
  split; [exact Hreq2|]. split; [|split; [|split; [|split; [|split]]]].
  - unfold TopicNormalizer.normalize_topic. cbn [hashable negb].
    destruct (cache_find (PStr s) (cache st)); cbn [snd requests]; [lia|].
    pose proof (body_requests (PStr s) (requests st)) as Hb.
    destruct (normalize_body (PStr s) (requests st)). cbn [snd requests] in *. lia.
  - intros later Hfew. rewrite Hret.
    apply (cached_call (PStr s) (PStr t)); [reflexivity|].
    apply value_persists; [exact Hfind|].
    apply few_others_stays; [reflexivity | exact Hfew | | eauto].
    apply distinct_step, (distinct_run pre initial). constructor.
  - apply (capacity_run pre initial). simpl. unfold MAXSIZE. lia.
  - apply (distinct_run pre initial). constructor.
  - intros k w Hk Hhit. unfold TopicNormalizer.normalize_topic.
    now rewrite Hk, Hhit.
  - intros k Hk Hmiss Hfull. unfold TopicNormalizer.normalize_topic.
    rewrite Hk, Hmiss. cbn [negb].
    destruct (normalize_body k (requests st)) as [w n]. cbn [fst snd cache].
    rewrite Hfull. reflexivity.
Qed.

(** C10.  Let a first call for the text [s] miss the cache and fail open:
    the client is not initialised, or the request raises or has no
    content.  The call returns [s] itself, and as long as the entry stays in
    the cache through the calls that follow (as it does when they name
    fewer than 100 distinct other topics), a later call for [s] returns [s]
    again and makes no request. *)
Theorem fail_open_result_is_cached (pre later : list pyval) (s : string) :
  cache_find (PStr s) (cache (run_calls pre initial)) = None ->
  client = false
  \/ (s <> ""
      /\ forall content,
           remote (requests (run_calls pre initial)) s <> Returns (Some content)) ->
  fst (normalize_topic (PStr s) (run_calls pre initial)) = Returns (PStr s)
  /\ (stays_cached (PStr s) later
        (snd (normalize_topic (PStr s) (run_calls pre initial)))
      \/ few_others (PStr s) later ->
      fst (normalize_topic (PStr s)
             (run_calls later (snd (normalize_topic (PStr s) (run_calls pre initial)))))
      = Returns (PStr s)
      /\ requests
           (snd (normalize_topic (PStr s)
                   (run_calls later
                      (snd (normalize_topic (PStr s) (run_calls pre initial))))))
         = requests
             (run_calls later (snd (normalize_topic (PStr s) (run_calls pre initial))))).
Proof.
  set (st := run_calls pre initial). intros Hmiss Hopen.
  assert (Hbody : fst (normalize_body (PStr s) (requests st)) = PStr s).
  { unfold TopicNormalizer.normalize_body.
    destruct Hopen as [-> | [Hne Hremote]]; [reflexivity|].
    destruct client; [|reflexivity]. cbn [negb].
    assert (Hdeg : degenerate (PStr s) = false).
    { unfold degenerate. simpl. apply String.eqb_neq in Hne. now rewrite Hne. }
    rewrite Hdeg.
    destruct (remote (requests st) s) as [[content|]|e] eqn:Hr; [|reflexivity..].
    now destruct (Hremote content). }
  assert (Hcall : fst (normalize_topic (PStr s) st) = Returns (PStr s)
                  /\ cache_find (PStr s) (cache (snd (normalize_topic (PStr s) st)))
                     = Some (PStr s)).
  { unfold TopicNormalizer.normalize_topic. cbn [hashable negb]. rewrite Hmiss.
    destruct (normalize_body (PStr s) (requests st)) as [w n].
    cbn [fst] in Hbody. subst w. cbn [fst snd cache cache_find key_eqb].
    now rewrite String.eqb_refl. }
  destruct Hcall as [Hret Hfind]. split; [exact Hret|].
  intros Hlater.
  assert (Hstays : stays_cached (PStr s) later (snd (normalize_topic (PStr s) st))).
  { destruct Hlater as [Hstays | Hfew]; [exact Hstays|].
    apply few_others_stays; [reflexivity | exact Hfew | | ].
    - apply distinct_step, (distinct_run pre initial). constructor.
    - destruct (call_heads_cache (PStr s) st eq_refl) as [v [rest [_ Hhead]]]. eauto. }
  apply (cached_call (PStr s) (PStr s)); [reflexivity|].
  now apply value_persists.
Qed.

End Normalizer.

(** C5, as the code has it.  With the client initialised, a degenerate
    hashable topic ([None], the empty text, a number or a truth value)
    gives [Unknown] in every state the process can reach.  With the client
    not initialised, the guard of line 64 runs first and the call returns
    the topic itself. *)
Theorem degenerate_topic_is_unknown
    (remote : nat -> string -> outcome (option string))
    (pre : list pyval) (topic : pyval) :
  hashable topic = true ->
  degenerate topic = true ->
  fst (TopicNormalizer.normalize_topic true remote topic
         (TopicNormalizer.run_calls true remote pre initial))
  = Returns (PStr "Unknown")
  /\ fst (TopicNormalizer.normalize_topic false remote topic
            (TopicNormalizer.run_calls false remote pre initial))
     = Returns topic.
Proof.
  intros Hhash Hdeg. split.
  - set (st := TopicNormalizer.run_calls true remote pre initial).
    unfold TopicNormalizer.normalize_topic. rewrite Hhash. cbn [negb].
    destruct (cache_find topic (cache st)) as [v|] eqn:Hfind.
    + cbn [fst]. f_equal.
      apply (entries_run true remote
               (fun k w => degenerate k = true -> w = PStr "Unknown") pre)
        with (st := initial) (k := topic); [ | intros k w [] | | exact Hdeg].
      * intros k n Hk. unfold TopicNormalizer.normalize_body. cbn [negb].
        now rewrite Hk.
      * now apply cache_find_In.
    + unfold TopicNormalizer.normalize_body. cbn [negb]. now rewrite Hdeg.
  - set (st := TopicNormalizer.run_calls false remote pre initial).
    unfold TopicNormalizer.normalize_topic. rewrite Hhash. cbn [negb].
    destruct (cache_find topic (cache st)) as [v|] eqn:Hfind.
    + cbn [fst]. f_equal.
      apply (entries_run false remote (fun k w => w = k) pre)
        with (st := initial) (k := topic); [ | intros k w [] | ].
      * intros k n. reflexivity.
      * now apply cache_find_In.
    + reflexivity.
Qed.


Import Examples.

(** C5 refuted: with the client not initialised, [None] comes back as
    [None] and the empty text as the empty text; and a list, which is no
    cache key, raises before the body runs. *)
Lemma degenerate_without_client_counterexample :
  fst (TopicNormalizer.normalize_topic false remote_down PNone initial) = Returns PNone
  /\ fst (TopicNormalizer.normalize_topic false remote_down (PStr "") initial)
     = Returns (PStr "")
  /\ fst (TopicNormalizer.normalize_topic true remote_down (PList []) initial)
     = Raises "unhashable type: 'list'".
Proof. split; [|split]; reflexivity. Qed.

Lemma degenerate_topic_is_unknown_witness :
  fst (TopicNormalizer.normalize_topic true remote_titles PNone
         (TopicNormalizer.run_calls true remote_titles [PInt 0; PStr "vs code"] initial))
  = Returns (PStr "Unknown").
Proof.
  apply (degenerate_topic_is_unknown remote_titles [PInt 0; PStr "vs code"] PNone);
    reflexivity.
Defined.

Lemma repeated_topic_hits_cache_witness :
  cache (snd (TopicNormalizer.normalize_topic true remote_titles
                (PStr "python programming")
                (TopicNormalizer.run_calls true remote_titles hundred_topics initial)))
  = (PStr "python programming", PStr "Python Programming")
      :: removelast
           (cache (TopicNormalizer.run_calls true remote_titles hundred_topics initial)).
Proof.
  destruct (repeated_topic_hits_cache true remote_titles hundred_topics
              "python programming") as [_ [_ [_ [_ [_ [_ [_ Hevict]]]]]]].
  apply (Hevict (PStr "python programming")); vm_compute; reflexivity.
Defined.

Lemma fail_open_result_is_cached_witness :
  fst (TopicNormalizer.normalize_topic true remote_flaky (PStr "python programming")
         (TopicNormalizer.run_calls true remote_flaky
            [PStr "vs code"; PStr "python programming"]
            (snd (TopicNormalizer.normalize_topic true remote_flaky
                    (PStr "python programming") initial))))
  = Returns (PStr "python programming").
Proof.
  destruct (fail_open_result_is_cached true remote_flaky []
              [PStr "vs code"; PStr "python programming"] "python programming")
    as [_ Hlater].
  - reflexivity.
  - right. split; [discriminate | intros content; discriminate].
  - destruct Hlater as [Hret _]; [|exact Hret].
    left. vm_compute. repeat split; discriminate.
Defined.

End TopicNormalizerFacts.

(** ** More on the tracking loop *)

Module MainMore.
Import DataStorage Main MainFacts Results.
Section Tracker.
Context {P : PandasLib}.
Variable MAX_RETRIES : Z.
Variable E : env.

Abbreviation attempts := (attempts MAX_RETRIES).
Abbreviation retries_left := (retries_left MAX_RETRIES).
Abbreviation capture_attempt := (capture_attempt E).
Abbreviation analysis_attempt := (analysis_attempt MAX_RETRIES E).
Abbreviation run_tracker_iteration := (run_tracker_iteration MAX_RETRIES E).

Abbreviation no_shot := ({| screenshot_path := None; shots_taken := 0 |}).





Lemma capture_calls xs : forall st,
  shots_taken (for_each capture_attempt xs st) <= shots_taken st + List.length xs.
Proof.
  induction xs as [|a xs IH]; intros st; simpl; [lia|].
  unfold Main.capture_attempt at 1.
  destruct (take_screenshot E a) as [p|e].
  - destruct (path_truthy p); simpl; [lia|].
    etransitivity; [apply IH|]. simpl. lia.
  - etransitivity; [apply IH|]. simpl. lia.
Qed.

Lemma analysis_calls path xs : forall st,
  analyses_made (for_each (analysis_attempt path) xs st)
  <= analyses_made st + List.length xs.
Proof.
  induction xs as [|a xs IH]; intros st; simpl; [lia|].
  destruct (analysis_attempt_cases MAX_RETRIES E path a st)
    as [[st' [Hs [_ Hn]]] | [[st' [Hs [_ Hn]]] | [st' [Hs [_ [_ Hn]]]]]].
  - rewrite Hs. etransitivity; [apply IH|]. lia.
  - rewrite Hs. lia.
  - destruct Hs as [Hs | [Hs _]]; rewrite Hs; [lia|].
    etransitivity; [apply IH|]. lia.
Qed.

(** X2.  Each phase is bounded by [MAX_RETRIES]: an iteration calls
    [take_screenshot] at most that often and [analyze_screenshot] at most
    that often, and never analyses without a captured path.  With
    [MAX_RETRIES] at zero or below it calls nothing and writes nothing. *)
Theorem retries_are_bounded (f : store) :
  captures (run_tracker_iteration f) <= Z.to_nat MAX_RETRIES
  /\ analyses (run_tracker_iteration f) <= Z.to_nat MAX_RETRIES
  /\ (path_truthy (screenshot_path (for_each capture_attempt attempts no_shot)) = false ->
      analyses (run_tracker_iteration f) = 0)
  /\ ((MAX_RETRIES <= 0)%Z ->
      run_tracker_iteration f
      = {| final_file := f; captures := 0; analyses := 0; escaped := None |}).
Proof.
  assert (Hshots : shots_taken (for_each capture_attempt attempts no_shot)
                   <= Z.to_nat MAX_RETRIES).
  { pose proof (capture_calls attempts no_shot) as H.
    unfold Main.attempts in H at 2. rewrite length_seq in H. exact H. }
  unfold Main.run_tracker_iteration.
  split; [|split; [|split]].
  - destruct (path_truthy _); cbn [negb]; [|exact Hshots].
    now destruct (save_step E _ _).
  - destruct (path_truthy _); cbn [negb]; [|simpl; lia].
    destruct (save_step E _ _). cbn [analyses].
    pose proof (analysis_calls
                  (screenshot_path (for_each capture_attempt attempts no_shot))
                  attempts
                  {| analysis_result := PNone; file := f; analyses_made := 0 |}) as H.
    unfold Main.attempts in H at 3. rewrite length_seq in H. exact H.
  - intros ->. reflexivity.
  - intros Hmax. unfold Main.attempts.
    replace (Z.to_nat MAX_RETRIES) with 0 by lia. reflexivity.
Qed.

Lemma failing_captures_prefix xs ys : forall st,
  path_truthy (screenshot_path st) = false ->
  (forall a, In a xs -> capture_fails (take_screenshot E a)) ->
  exists st',
    for_each capture_attempt (xs ++ ys)%list st = for_each capture_attempt ys st'
    /\ path_truthy (screenshot_path st') = false
    /\ shots_taken st' = shots_taken st + List.length xs.
Proof.
  induction xs as [|a xs IH]; intros st Hst Hall.
  - exists st. simpl. repeat split; [assumption | lia].
  - destruct (failed_capture_step E a st Hst (Hall a (or_introl eq_refl)))
      as [st1 [Hstep [Hp Hn]]].
    destruct (IH st1 Hp) as [st' [Hrun [Hp' Hn']]].
    { intros b Hb. apply Hall. now right. }
    exists st'. simpl. rewrite Hstep. repeat split; [exact Hrun | exact Hp' |].
    rewrite Hn', Hn. simpl. lia.
Qed.

(** The attempts before a first success count as failed captures, and the
    path of the success is the captured one. *)
Lemma first_success_captured (k : nat) (p : string) :
  (Z.of_nat k < MAX_RETRIES)%Z ->
  (forall j, j < k -> capture_fails (take_screenshot E j)) ->
  take_screenshot E k = Returns (Some p) ->
  p <> "" ->
  for_each capture_attempt attempts no_shot
  = {| screenshot_path := Some p; shots_taken := S k |}.
Proof.
  intros Hk Hbefore Hshot Hne.
  rewrite (attempts_split MAX_RETRIES k Hk).
  destruct (failing_captures_prefix (seq 0 k)
              (k :: seq (S k) (Z.to_nat MAX_RETRIES - S k)) no_shot eq_refl)
    as [st' [Hrun [_ Hn]]].
  { intros j Hj. apply in_seq in Hj. apply Hbefore. lia. }
  rewrite Hrun. simpl. unfold Main.capture_attempt at 1. rewrite Hshot.
  simpl. apply String.eqb_neq in Hne. rewrite Hne. simpl.
  rewrite Hn, length_seq. reflexivity.
Qed.

(** X3.  The capture phase stops at its first success: when the attempts
    before [k] fail and attempt [k] returns a path, that path is the one
    the iteration works with and [take_screenshot] was called [k + 1]
    times, whatever the later attempts would have answered. *)
Theorem capture_stops_at_first_success (f : store) (k : nat) (p : string) :
  (Z.of_nat k < MAX_RETRIES)%Z ->
  (forall j, j < k -> capture_fails (take_screenshot E j)) ->
  take_screenshot E k = Returns (Some p) ->
  p <> "" ->
  captured MAX_RETRIES E p
  /\ captures (run_tracker_iteration f) = S k.
Proof.
  intros Hk Hbefore Hshot Hne.
  pose proof (first_success_captured k p Hk Hbefore Hshot Hne) as Hrun.
  assert (Hc : captured MAX_RETRIES E p).
  { split; [now rewrite Hrun | exact Hne]. }
  split; [exact Hc|].
  rewrite (run_after_capture MAX_RETRIES E p f Hc). simpl.
  now rewrite Hrun.
Qed.

(** Whatever an iteration writes is one call of [save_activity] with the
    clock of the iteration, the active window and the captured path. *)
Lemma iteration_writes (f : store) :
  final_file (run_tracker_iteration f) = f
  \/ exists p crisp topic short,
       captured MAX_RETRIES E p
       /\ final_file (run_tracker_iteration f)
          = save_activity (now E) (active_window E) crisp topic short (Some p) f.
Proof.
  unfold Main.run_tracker_iteration.
  destruct (screenshot_path (for_each capture_attempt attempts no_shot))
    as [p|] eqn:Hpath; [|now left].
  destruct (path_truthy (Some p)) eqn:Htruthy; cbn [negb]; [|now left].
  assert (Hc : captured MAX_RETRIES E p).
  { split; [exact Hpath|]. simpl in Htruthy.
    intros ->. discriminate. }
  destruct (analysis_loop_cases MAX_RETRIES E (Some p) (Z.to_nat MAX_RETRIES) 0
              {| analysis_result := PNone; file := f; analyses_made := 0 |} eq_refl)
    as [Hsame | [Hnone [crisp [short [_ Hrec]]]]];
    fold attempts in *; simpl in *.
  - unfold save_step.
    set (st := for_each (analysis_attempt (Some p)) attempts _) in *.
    destruct (py_truthy (analysis_result st)); [|simpl; now left].
    destruct (py_contains "error" (analysis_result st)) as [[|]|e];
      [simpl; now left | | simpl; now left].
    destruct (py_get (analysis_result st) "crisp_description" _) as [crisp|];
      [|simpl; now left].
    destruct (py_get (analysis_result st) "main_topic" _) as [topic|];
      [|simpl; now left].
    destruct (py_get (analysis_result st) "short_description" _) as [short|];
      [|simpl; now left].
    simpl. right. exists p, crisp, topic, short. now rewrite Hsame.
  - unfold save_step. rewrite Hnone. simpl. right.
    exists p, (PStr crisp), (PStr "Error"), short. split; [exact Hc | exact Hrec].
Qed.

(** X4.  Every record an iteration writes, the failure records too, is
    one line of six cells that starts with the clock of the iteration and
    the active window and ends with the file name of the captured
    screenshot. *)
Theorem written_record_shape (f : store) :
  final_file (run_tracker_iteration f) = f
  \/ exists p crisp topic short,
       captured MAX_RETRIES E p
       /\ appended f (final_file (run_tracker_iteration f))
            [instant_str (now E); active_window E; crisp; topic; short; basename p].
Proof.
  destruct (iteration_writes f) as [H | [p [crisp [topic [short [Hc H]]]]]];
    [now left|].
  right. exists p, (to_csv_cell crisp), (to_csv_cell topic), (to_csv_cell short).
  split; [exact Hc|]. rewrite H.
  destruct Hc as [_ Hne]. apply String.eqb_neq in Hne.
  unfold appended, save_activity. rewrite Hne. now destruct f.
Qed.


(** The state of the classification phase when attempt [k] is reached. *)
Lemma reach_attempt (f : store) (p : string) (k : nat) :
  captured MAX_RETRIES E p ->
  (Z.of_nat k < MAX_RETRIES)%Z ->
  (forall j, j < k -> retryable (analyze_screenshot E j)) ->
  exists r,
    for_each (analysis_attempt (Some p)) attempts
      {| analysis_result := PNone; file := f; analyses_made := 0 |}
    = for_each (analysis_attempt (Some p))
        (k :: seq (S k) (Z.to_nat MAX_RETRIES - S k))
        {| analysis_result := r; file := f; analyses_made := k |}.
Proof.
  intros Hc Hk Hbefore. rewrite (attempts_split MAX_RETRIES k Hk).
  destruct (passing_prefix MAX_RETRIES E (Some p) (seq 0 k)
              (k :: seq (S k) (Z.to_nat MAX_RETRIES - S k))
              {| analysis_result := PNone; file := f; analyses_made := 0 |})
    as [r [Hrun _]].
  - intros j Hj. apply in_seq in Hj. apply retryable_passes.
    + apply Hbefore. lia.
    + apply (retries_left_before MAX_RETRIES k); lia.
  - exists r. rewrite Hrun. simpl. now rewrite length_seq.
Qed.

(** A result with the three keys and no [error] key is saved as it is. *)
Lemma wellformed_result_saved (f : store) (p : string) (k : nat)
    (d : list (string * pyval)) (crisp topic short : pyval) :
  captured MAX_RETRIES E p ->
  (Z.of_nat k < MAX_RETRIES)%Z ->
  (forall j, j < k -> retryable (analyze_screenshot E j)) ->
  analyze_screenshot E k = Returns (PDict d) ->
  dict_lookup "error" d = None ->
  dict_lookup "crisp_description" d = Some crisp ->
  dict_lookup "main_topic" d = Some topic ->
  dict_lookup "short_description" d = Some short ->
  final_file (run_tracker_iteration f)
  = save_activity (now E) (active_window E) crisp topic short (Some p) f
  /\ analyses (run_tracker_iteration f) = S k.
Proof.
  intros Hc Hk Hbefore Hres Herr Hcrisp Htopic Hshort.
  rewrite (run_after_capture MAX_RETRIES E p f Hc). simpl.
  destruct (reach_attempt f p k Hc Hk Hbefore) as [r ->]. simpl.
  assert (Htruthy : py_truthy (PDict d) = true).
  { destruct d; [discriminate | reflexivity]. }
  unfold Main.analysis_attempt. rewrite Hres, Htruthy. simpl. rewrite Herr.
  unfold save_step. simpl analysis_result. rewrite Htruthy. simpl.
  now rewrite Herr, Hcrisp, Htopic, Hshort.
Qed.

(** A truthy result that is no dict and holds no [error] ends the loop as
    a success; the save step then fails on [.get] and writes nothing. *)
Lemma non_dict_result_unsaved (f : store) (p : string) (k : nat) (r : pyval) :
  captured MAX_RETRIES E p ->
  (Z.of_nat k < MAX_RETRIES)%Z ->
  (forall j, j < k -> retryable (analyze_screenshot E j)) ->
  analyze_screenshot E k = Returns r ->
  py_truthy r = true ->
  py_contains "error" r = Returns false ->
  (forall key default, exists e, py_get r key default = Raises e) ->
  final_file (run_tracker_iteration f) = f
  /\ analyses (run_tracker_iteration f) = S k.
Proof.
  intros Hc Hk Hbefore Hres Htruthy Hin Hget.
  rewrite (run_after_capture MAX_RETRIES E p f Hc). simpl.
  destruct (reach_attempt f p k Hc Hk Hbefore) as [r0 ->]. simpl.
  unfold Main.analysis_attempt. rewrite Hres, Htruthy, Hin.
  unfold save_step. simpl analysis_result. rewrite Htruthy, Hin.
  destruct (Hget "crisp_description" (PStr "N/A")) as [e ->].
  split; reflexivity.
Qed.

(** A dict with an [error] key is recorded as an error, whatever else it
    holds. *)
Lemma error_key_recorded (f : store) (p : string) (k : nat)
    (d : list (string * pyval)) (err : pyval) :
  captured MAX_RETRIES E p ->
  (Z.of_nat k < MAX_RETRIES)%Z ->
  (forall j, j < k -> retryable (analyze_screenshot E j)) ->
  analyze_screenshot E k = Returns (PDict d) ->
  dict_lookup "error" d = Some err ->
  py_eq_str err "JSONDecodeError" = false ->
  final_file (run_tracker_iteration f)
  = save_activity (now E) (active_window E) (PStr "Analysis Error") (PStr "Error")
      match dict_lookup "raw_content" d with
      | Some raw => raw
      | None => PStr "Analysis failed"
      end (Some p) f
  /\ analyses (run_tracker_iteration f) = S k.
Proof.
  intros Hc Hk Hbefore Hres Herr Hkind.
  rewrite (run_after_capture MAX_RETRIES E p f Hc). simpl.
  destruct (reach_attempt f p k Hc Hk Hbefore) as [r0 ->]. simpl.
  assert (Htruthy : py_truthy (PDict d) = true).
  { destruct d; [discriminate | reflexivity]. }
  unfold Main.analysis_attempt. rewrite Hres, Htruthy. simpl. rewrite Herr, Hkind.
  simpl. split; reflexivity.
Qed.

End Tracker.

Lemma extended_twice (f : store) (a b : list (list string)) :
  MainLoop.extended (MainLoop.extended f a) b = MainLoop.extended f (a ++ b).
Proof.
  destruct a as [|x a]; [reflexivity|].
  destruct f as [lines|]; destruct b as [|y b]; simpl;
    rewrite ?app_nil_r, <- ?app_assoc; reflexivity.
Qed.

(** X5.  The log only grows.  After any number of rounds of [main()] the
    file is the one the loop started with, followed by at most one new
    line per round, each of six cells; the header is written once, when
    the first record creates the file.  No round changes or removes a line
    that is already there. *)
Theorem log_only_grows {P : PandasLib} (MAX_RETRIES : Z) (rounds : list env) :
  forall f : store,
  exists added,
    MainLoop.main MAX_RETRIES rounds f = MainLoop.extended f added
    /\ List.length added <= List.length rounds
    /\ Forall (fun line => List.length line = 6) added.
Proof.
  induction rounds as [|E rounds IH]; intros f.
  - exists []. split; [reflexivity | split; [simpl; lia | constructor]].
  - simpl.
    destruct (iteration_writes MAX_RETRIES E f)
      as [Hsame | [p [crisp [topic [short [_ Hsave]]]]]].
    + rewrite Hsame. destruct (IH f) as [added [Hmain [Hlen Hcells]]].
      exists added. split; [exact Hmain | split; [simpl; lia | exact Hcells]].
    + rewrite Hsave.
      destruct (IH (save_activity (now E) (active_window E) crisp topic short
                      (Some p) f)) as [added [Hmain [Hlen Hcells]]].
      set (line := [instant_str (now E); to_csv_cell (PStr (active_window E));
                    to_csv_cell crisp; to_csv_cell topic; to_csv_cell short;
                    to_csv_cell (if p =? "" then PNone else PStr (basename p))]).
      exists (line :: added). split; [|split].
      * rewrite Hmain.
        change (line :: added) with ([line] ++ added)%list.
        rewrite <- extended_twice.
        f_equal; unfold save_activity, MainLoop.extended; now destruct f.
      * simpl. lia.
      * constructor; [reflexivity | exact Hcells].
Qed.

End MainMore.

(** ** More on the activity store *)

Module StoreMore.
Import DataStorage DataStorageFacts Log.
Section Store.
Context {P : PandasLib}.

Lemma set_nth_length i c (row : list cell) :
  List.length (set_nth i c row) = List.length row.
Proof.
  revert i. induction row as [|x row IH]; intros [|i]; simpl; auto.
Qed.

Lemma set_nth_same i c (row : list cell) :
  i < List.length row -> nth i (set_nth i c row) NaN = c.
Proof.
  revert i. induction row as [|x row IH]; intros [|i]; simpl; try lia; auto.
  intros H. apply IH. lia.
Qed.

Lemma read_line_width w line :
  List.length line <= w -> List.length (read_line w line) = w.
Proof.
  intros H. unfold read_line. rewrite length_app, length_map, repeat_length. lia.
Qed.

Lemma to_datetime_value_instant c c' :
  to_datetime_value c = Some c' -> is_instant c' = true.
Proof.
  destruct c as [|s|t|]; simpl.
  - now intros [= <-].
  - destruct (to_datetime_cell s); [now intros [= <-] | discriminate].
  - now intros [= <-].
  - now intros [= <-].
Qed.

(** What the conversion of the column leaves of the rows: as many rows,
    each as wide as before, with an instant in the column. *)
Lemma to_datetime_rows i rs : forall rs',
  to_datetime i rs = Some rs' ->
  List.length rs' = List.length rs
  /\ (forall w, Forall (fun row => List.length row = w) rs ->
      Forall (fun row => List.length row = w) rs')
  /\ (Forall (fun row => i < List.length row) rs ->
      Forall (fun row => is_instant (nth i row NaN) = true) rs').
Proof.
  induction rs as [|row rs IH]; intros rs'; simpl.
  - intros [= <-]. repeat split; auto.
  - destruct (to_datetime_value (nth i row NaN)) as [c|] eqn:Hc; [|discriminate].
    destruct (to_datetime i rs) as [rest|]; [|discriminate].
    intros [= <-]. destruct (IH rest eq_refl) as [Hlen [Hwide Hinst]].
    split; [simpl; now rewrite Hlen|]. split.
    + intros w Hall. inversion Hall; subst. constructor.
      * apply set_nth_length.
      * now apply Hwide.
    + intros Hall. inversion Hall; subst. constructor.
      * rewrite set_nth_same by assumption. apply (to_datetime_value_instant (nth i row NaN) c Hc).
      * now apply Hinst.
Qed.

Lemma column_index_bound name (cols : list string) i :
  column_index name cols = Some i -> i < List.length cols.
Proof.
  revert i. induction cols as [|c cols IH]; intros i; simpl; [discriminate|].
  destruct (c =? name); [intros [= <-]; lia|].
  destruct (column_index name cols) as [j|]; [|discriminate].
  intros [= <-]. specialize (IH j eq_refl). lia.
Qed.

Lemma column_index_none name (cols : list string) :
  ~ In name cols -> column_index name cols = None.
Proof.
  induction cols as [|c cols IH]; intros Hnot; simpl; [reflexivity|].
  destruct (String.eqb_spec c name) as [-> | _].
  - destruct Hnot. now left.
  - rewrite IH; [reflexivity|]. intros Hin. apply Hnot. now right.
Qed.

(** The lines [read_csv] accepts come out as wide as the header. *)
Lemma read_rows_width (header : list string) (body : list (list string)) :
  forallb (fun line => (List.length line <=? List.length header)%nat) body = true ->
  Forall (fun row => List.length row = List.length header)
    (map (read_line (List.length header)) body).
Proof.
  induction body as [|line body IH]; simpl; [constructor|].
  intros H. apply andb_prop in H. destruct H as [Hline Hbody].
  constructor; [|now apply IH].
  apply read_line_width. now apply Nat.leb_le.
Qed.

(** The frame [load_activity_data] returns: the empty frame, or the frame
    of a file whose header names the Timestamp column and whose rows were
    all converted. *)
Lemma load_cases (file : store) :
  load_activity_data file = empty_frame
  \/ exists header body i rs,
       file = Some (header :: body)
       /\ column_index "Timestamp" header = Some i
       /\ forallb (fun line => (List.length line <=? List.length header)%nat) body = true
       /\ to_datetime i (map (read_line (List.length header)) body) = Some rs
       /\ load_activity_data file = {| columns := header; rows := rs |}.
Proof.
  destruct file as [[|header body]|]; simpl; [now left | | now left].
  destruct (forallb _ body) eqn:Hwide; [|now left]. simpl.
  destruct (column_index "Timestamp" header) as [i|] eqn:Hi; [|now left].
  destruct (to_datetime i _) as [rs|] eqn:Hrs; [|now left].
  right. exists header, body, i, rs. repeat split; assumption.
Qed.

Lemma loaded_instants (file : store) (i : nat) :
  column_index "Timestamp" (columns (load_activity_data file)) = Some i ->
  Forall (fun row => is_instant (nth i row NaN) = true)
    (rows (load_activity_data file)).
Proof.
  destruct (load_cases file)
    as [-> | [header [body [j [rs [_ [Hj [Hwide [Hrs ->]]]]]]]]]; simpl.
  - constructor.
  - rewrite Hj. intros [= <-].
    apply (to_datetime_rows j _ rs Hrs).
    pose proof (column_index_bound _ _ _ Hj) as Hbound.
    eapply Forall_impl; [|apply (read_rows_width header body Hwide)].
    simpl. intros row ->. exact Hbound.
Qed.


(** X7.  After a load the Timestamp column holds instants only: a
    parsed time, or NaT for a missing cell.  No text is left in it,
    whatever the file held. *)
Theorem loaded_timestamps_are_instants (file : store) :
  exists i,
    column_index "Timestamp" (columns (load_activity_data file)) = Some i
    /\ Forall (fun row => (exists t, nth i row NaN = Time t) \/ nth i row NaN = NaT)
         (rows (load_activity_data file)).
Proof.
  assert (Hi : exists i,
             column_index "Timestamp" (columns (load_activity_data file)) = Some i).
  { destruct (load_cases file)
      as [-> | [header [body [i [rs [_ [Hi [_ [_ ->]]]]]]]]]; simpl; eauto. }
  destruct Hi as [i Hi]. exists i. split; [exact Hi|].
  eapply Forall_impl; [|apply (loaded_instants file i Hi)].
  simpl. intros row Hrow.
  destruct (nth i row NaN) as [|s|t|]; try discriminate.
  - left. now exists t.
  - now right.
Qed.


Lemma save_all_extended rs : forall f,
  save_all rs f = MainLoop.extended f (map line_of rs).
Proof.
  induction rs as [|r rs IH]; intros f; [reflexivity|].
  simpl save_all. rewrite IH.
  change (map line_of (r :: rs)) with ([line_of r] ++ map line_of rs)%list.
  rewrite <- MainMore.extended_twice.
  f_equal; unfold save_record, save_activity, MainLoop.extended, line_of;
    now destruct f.
Qed.




(** X9.  An existing empty file never gets a header: [save_activity]
    appends to it without one, so the first record is read as the header.
    Unless one of its cells is the text [Timestamp], every later load falls
    back to the empty frame and none of the records saved comes back,
    however many there are. *)
Theorem headerless_file_hides_records (r : activity) (rs : list activity) :
  ~ In "Timestamp" (line_of r) ->
  save_all (r :: rs) (Some []) = Some (map line_of (r :: rs))
  /\ load_activity_data (save_all (r :: rs) (Some [])) = empty_frame.
Proof.
  intros Hnot. rewrite save_all_extended.
  change (MainLoop.extended (Some []) (map line_of (r :: rs)))
    with (Some (line_of r :: map line_of rs) : store).
  split; [reflexivity|].
  unfold load_activity_data, read_csv.
  destruct (forallb _ (map line_of rs)); [|reflexivity].
  cbn [columns]. now rewrite (column_index_none _ _ Hnot).
Qed.

End Store.
End StoreMore.

(** ** More on the classification client *)

Module ImageMore.
Import ImageAnalysis Results.
Section Client.
Context {J : JsonLib}.

Lemma contains_makes_truthy k v :
  k <> "" -> py_contains k v = Returns true -> py_truthy v = true.
Proof.
  intros Hk. destruct v as [| | |s|l|d]; simpl; try discriminate.
  - destruct s; [|reflexivity]. destruct k; [contradiction | discriminate].
  - destruct l; [discriminate | reflexivity].
  - destruct d; [discriminate | reflexivity].
Qed.

Lemma validated_is_truthy v :
  all_keys_in REQUIRED_KEYS v = Returns true -> py_truthy v = true.
Proof.
  unfold REQUIRED_KEYS. cbn [all_keys_in].
  destruct (py_contains "crisp_description" v) as [[|]|e] eqn:Hin; try discriminate.
  intros _. apply (contains_makes_truthy "crisp_description"); [discriminate | exact Hin].
Qed.

(** X10.  [analyze_screenshot] returns one of four things: [None], an
    error result of kind [JSONDecodeError], an error result of kind
    [Invalid JSON structure], or the decoded value, which then holds the
    three required keys.  Whatever is not [None] is truthy, so the test
    [if analysis_result] of the loop singles out exactly the hard
    failures. *)
Theorem analysis_result_classes (client : bool) (base64_image : option string)
    (response : outcome (option string)) :
  (analyze_screenshot client base64_image response = PNone
   \/ (exists raw, analyze_screenshot client base64_image response
                  = error_dict "JSONDecodeError" raw)
   \/ (exists raw, analyze_screenshot client base64_image response
                  = error_dict "Invalid JSON structure" raw)
   \/ all_keys_in REQUIRED_KEYS (analyze_screenshot client base64_image response)
      = Returns true)
  /\ (analyze_screenshot client base64_image response = PNone
      \/ py_truthy (analyze_screenshot client base64_image response) = true).
Proof.
  unfold analyze_screenshot.
  destruct client; cbn [negb]; [|split; now left].
  destruct base64_image as [b64|]; [|split; now left].
  destruct (b64 =? ""); [split; now left|].
  destruct response as [[content|]|e]; [|split; now left..].
  unfold parse_response.
  destruct (json_loads (clean_fences content)) as [v|].
  - destruct (all_keys_in REQUIRED_KEYS v) as [[|]|e] eqn:Hkeys.
    + split; [now do 3 right | right; now apply validated_is_truthy].
    + split; [right; right; left; eauto | now right].
    + split; now left.
  - split; [right; left; eauto | now right].
Qed.

(** X11.  An answer that decodes to a JSON scalar ([null], a truth
    value, a number) is not reported as an invalid structure: the key test
    raises on it, the outer handler catches that, and the result is [None],
    the hard failure.  Any other decoded value comes back as it is or as an
    [Invalid JSON structure] error with the cleaned text. *)
Theorem scalar_answer_is_hard_failure (analysis_content : string) (v : pyval) :
  json_loads (clean_fences analysis_content) = Some v ->
  (scalar v = true -> parse_response analysis_content = PNone)
  /\ (scalar v = false ->
      parse_response analysis_content = v
      \/ parse_response analysis_content
         = error_dict "Invalid JSON structure" (clean_fences analysis_content)).
Proof.
  intros Hloads. unfold parse_response. rewrite Hloads. split.
  - destruct v; try discriminate; reflexivity.
  - intros Hv. destruct v as [| | |s|l|d]; try discriminate.
    + cbn [all_keys_in REQUIRED_KEYS py_contains].
      repeat match goal with
             | |- context [str_contains ?k s] => destruct (str_contains k s)
             end; auto.
    + cbn [all_keys_in REQUIRED_KEYS py_contains].
      repeat match goal with
             | |- context [existsb ?k l] => destruct (existsb k l)
             end; auto.
    + cbn [all_keys_in REQUIRED_KEYS py_contains].
      repeat match goal with
             | |- context [dict_lookup ?k d] => destruct (dict_lookup k d)
             end; auto.
Qed.

(** A text clear of a set of characters at its start is clear of any
    smaller set. *)
Lemma starts_clear_weaken (p q : ascii -> bool) body :
  (forall c, q c = true -> p c = true) ->
  lstrip_by p body = body -> lstrip_by q body = body.
Proof.
  intros Hsub Hclear. destruct body as [|c body]; [reflexivity|].
  pose proof (ImageAnalysisFacts.starts_clear_head p c body Hclear) as Hc.
  cbn [lstrip_by]. destruct (q c) eqn:Hq; [|reflexivity].
  apply Hsub in Hq. congruence.
Qed.

Lemma ends_clear_weaken (p q : ascii -> bool) body :
  (forall c, q c = true -> p c = true) ->
  rstrip_by p body = body -> rstrip_by q body = body.
Proof.
  intros Hsub. induction body as [|c body IH]; [reflexivity|].
  cbn [rstrip_by].
  destruct (rstrip_by p body) as [|k kept] eqn:Hbody.
  - destruct (p c) eqn:Hp; [discriminate|]. intros [= <-].
    cbn [rstrip_by]. destruct (q c) eqn:Hq; [|reflexivity].
    apply Hsub in Hq. congruence.
  - intros [= Hkept]. rewrite (IH Hkept). rewrite <- Hkept. reflexivity.
Qed.

Lemma backtick_in_marker c :
  ascii_in "```" c = true -> ascii_in "```json" c = true.
Proof.
  unfold ascii_in. cbn [list_ascii_of_string existsb].
  destruct (Ascii.eqb c "`"); [reflexivity | discriminate].
Qed.

(** The plain fence: the second branch of the cleaning, taken when the
    body does not go on with [json]. *)
Lemma clean_fences_plain body :
  starts_clear "```json" body ->
  ends_clear "```json" body ->
  clean_fences ("```" ++ body ++ "```") = py_strip body.
Proof.
  unfold starts_clear, ends_clear. intros Hstart Hend.
  pose proof (starts_clear_weaken _ (ascii_in "```") body backtick_in_marker Hstart)
    as Hstart'.
  pose proof (ends_clear_weaken _ (ascii_in "```") body backtick_in_marker Hend)
    as Hend'.
  unfold clean_fences.
  assert (Hjson : String.prefix "```json" ("```" ++ body ++ "```") = false).
  { destruct body as [|c body]; [reflexivity|].
    pose proof (ImageAnalysisFacts.starts_clear_head _ c body Hstart) as Hc.
    change ("```" ++ String c body ++ "```")
      with (String "`" (String "`" (String "`" (String c (body ++ "```"))))).
    cbn [String.prefix].
    destruct (ascii_dec "`" "`"); [|contradiction].
    destruct (ascii_dec "j" c) as [<-|]; [discriminate | reflexivity]. }
  assert (Hplain : String.prefix "```" ("```" ++ body ++ "```") = true).
  { simpl. now destruct (body ++ "```"). }
  rewrite Hjson, Hplain. f_equal. unfold py_strip_chars.
  rewrite (ImageAnalysisFacts.lstrip_by_prefix _ "```") by reflexivity.
  destruct body as [|c body].
  - reflexivity.
  - pose proof (ImageAnalysisFacts.starts_clear_head _ c body Hstart') as Hc.
    assert (Hl : lstrip_by (ascii_in "```") (String c body ++ "```")
                 = String c body ++ "```").
    { change (String c body ++ "```") with (String c (body ++ "```")).
      cbn [lstrip_by]. now rewrite Hc. }
    rewrite Hl. now apply ImageAnalysisFacts.rstrip_by_suffix.
Qed.

(** X12.  Where the cleaning of fences works.  When the body of the
    answer neither starts nor ends with one of the characters of the
    marker (a backtick, [j], [s], [o], [n]), as a JSON object in braces
    does, and the decoder does not mind white space around the value, an
    answer wrapped in either kind of fence, with the language tag or
    without, is classified as the bare body is: the same value, or an error
    of the same kind. *)
Theorem fenced_answers_classified_as_bare (body : string) :
  starts_clear "```json" body ->
  ends_clear "```json" body ->
  json_loads (py_strip body) = json_loads body ->
  same_classification (parse_response ("```json" ++ body ++ "```"))
    (parse_response body)
  /\ same_classification (parse_response ("```" ++ body ++ "```"))
       (parse_response body).
Proof.
  intros Hstart Hend Hws.
  split; [now apply ImageAnalysisFacts.wrapped_answer_classified_alike|].
  unfold parse_response.
  rewrite (clean_fences_plain body Hstart Hend),
    (ImageAnalysisFacts.clean_fences_bare body Hstart), Hws.
  destruct (json_loads body) as [v|].
  - destruct (all_keys_in REQUIRED_KEYS v) as [[|]|e].
    + now left.
    + right. eauto.
    + now left.
  - right. eauto.
Qed.

End Client.
End ImageMore.

(** ** The tracker with its own callees *)

Module SystemFacts.
Import DataStorage Main ImageAnalysis System.

Lemma slash_cons c s :
  str_contains "/" (String c s) = (Ascii.eqb "/" c || str_contains "/" s)%bool.
Proof.
  cbn [str_contains String.prefix].
  destruct (ascii_dec "/" c) as [<- | Hne].
  - now destruct s.
  - destruct (Ascii.eqb_spec "/"%char c); [contradiction | reflexivity].
Qed.

Lemma slash_app a b :
  str_contains "/" (a ++ b) = (str_contains "/" a || str_contains "/" b)%bool.
Proof.
  induction a as [|c a IH].
  - reflexivity.
  - change (String c a ++ b) with (String c (a ++ b)).
    rewrite !slash_cons, IH. now rewrite orb_assoc.
Qed.

(** [basename] undoes a join with a name that holds no slash. *)
Lemma basename_join dir name :
  str_contains "/" name = false -> basename (dir ++ "/" ++ name) = name.
Proof.
  intros Hname. induction dir as [|c dir IH].
  - change ("" ++ "/" ++ name) with (String "/" name).
    cbn [basename]. now rewrite Hname.
  - change (String c dir ++ "/" ++ name) with (String c (dir ++ "/" ++ name)).
    cbn [basename].
    assert (Hin : str_contains "/" (dir ++ "/" ++ name) = true).
    { rewrite slash_app. change ("/" ++ name) with (String "/" name).
      rewrite slash_cons. simpl. apply orb_true_r. }
    now rewrite Hin.
Qed.

Lemma shot_name_has_no_slash stamp :
  str_contains "/" stamp = false ->
  str_contains "/" ("screenshot_" ++ stamp ++ ".png") = false.
Proof.
  intros H. now rewrite (slash_app "screenshot_"), (slash_app stamp), H.
Qed.

Lemma shot_basename stamp :
  str_contains "/" stamp = false ->
  basename ("data/screenshots/screenshot_" ++ stamp ++ ".png")
  = "screenshot_" ++ stamp ++ ".png".
Proof.
  intros H.
  change ("data/screenshots/screenshot_" ++ stamp ++ ".png")
    with ("data/screenshots" ++ "/" ++ ("screenshot_" ++ stamp ++ ".png")).
  apply basename_join, shot_name_has_no_slash, H.
Qed.

(** X13.  The dashboard finds the image the tracker saved.  The path
    [take_screenshot] returns is never empty; its file name, which is
    what [save_activity] writes, is [screenshot_<stamp>.png]; this name is
    no NA marker, so it is read back as text, and joining it to the
    screenshot directory as the viewer does gives the path of the image
    again. *)
Theorem saved_screenshot_is_found {P : PandasLib} (stamp p : string) :
  str_contains "/" stamp = false ->
  ScreenshotCapture.take_screenshot (Returns tt) stamp = Some p ->
  p <> ""
  /\ basename p = "screenshot_" ++ stamp ++ ".png"
  /\ App.screenshot_to_show (na_filter (basename p)) = Some p.
Proof.
  intros Hstamp Hshot.
  assert (Hp : p = "data/screenshots/screenshot_" ++ stamp ++ ".png").
  { now injection Hshot as <-. }
  assert (Hbase : basename p = "screenshot_" ++ stamp ++ ".png").
  { rewrite Hp. apply shot_basename, Hstamp. }
  split; [now rewrite Hp | split; [exact Hbase|]].
  rewrite Hbase, Hp. reflexivity.
Qed.

Section World.
Context {J : JsonLib} {P : PandasLib}.
Variable MAX_RETRIES : Z.
Variable w : world.

(** The first grab works: its path is the captured one. *)
Lemma first_grab_captured :
  (0 < MAX_RETRIES)%Z ->
  grabs w 0 = Returns tt ->
  captured MAX_RETRIES (env_of w)
    ("data/screenshots/screenshot_" ++ stamps w 0 ++ ".png")
  /\ for_each (capture_attempt (env_of w)) (attempts MAX_RETRIES)
       {| screenshot_path := None; shots_taken := 0 |}
     = {| screenshot_path := Some ("data/screenshots/screenshot_" ++ stamps w 0 ++ ".png");
          shots_taken := 1 |}.
Proof.
  intros Hmax Hgrab.
  assert (Hrun : for_each (capture_attempt (env_of w)) (attempts MAX_RETRIES)
                   {| screenshot_path := None; shots_taken := 0 |}
                 = {| screenshot_path :=
                        Some ("data/screenshots/screenshot_" ++ stamps w 0 ++ ".png");
                      shots_taken := 1 |}).
  { apply (MainMore.first_success_captured MAX_RETRIES (env_of w) 0).
    - lia.
    - intros j Hj. lia.
    - simpl. now rewrite Hgrab.
    - discriminate. }
  split; [|exact Hrun]. split; [now rewrite Hrun | discriminate].
Qed.

(** The answer the loop gets at the first attempt, when the client runs
    and the image was encoded. *)
Lemma first_answer (b64 content : string) :
  client w = true ->
  images w 0 = Some b64 ->
  b64 <> "" ->
  responses w 0 = Returns (Some content) ->
  Main.analyze_screenshot (env_of w) 0 = Returns (parse_response content).
Proof.
  intros Hclient Himage Hne Hresp. simpl.
  unfold ImageAnalysis.analyze_screenshot.
  rewrite Hclient, Himage, Hresp. apply String.eqb_neq in Hne. now rewrite Hne.
Qed.

(** X14.  From the answer to the log.  When the first grab works and the
    model answers at once with a JSON object that holds the three keys and
    no [error] key, the iteration makes one capture and one request and
    appends one line: the clock, the window title (or the sentinel of
    [utils.py]), the three values as the model gave them, and the file
    name [screenshot_<stamp>.png]. *)
Theorem answer_is_saved_verbatim (f : store) (b64 content : string)
    (d : list (string * pyval)) (crisp topic short : pyval) :
  (0 < MAX_RETRIES)%Z ->
  grabs w 0 = Returns tt ->
  str_contains "/" (stamps w 0) = false ->
  client w = true ->
  images w 0 = Some b64 ->
  b64 <> "" ->
  responses w 0 = Returns (Some content) ->
  json_loads (clean_fences content) = Some (PDict d) ->
  dict_lookup "crisp_description" d = Some crisp ->
  dict_lookup "main_topic" d = Some topic ->
  dict_lookup "short_description" d = Some short ->
  dict_lookup "error" d = None ->
  appended f (final_file (run_tracker_iteration MAX_RETRIES (env_of w) f))
    [instant_str (clock w); Utils.get_active_window_title (window w);
     to_csv_cell crisp; to_csv_cell topic; to_csv_cell short;
     "screenshot_" ++ stamps w 0 ++ ".png"]
  /\ captures (run_tracker_iteration MAX_RETRIES (env_of w) f) = 1
  /\ analyses (run_tracker_iteration MAX_RETRIES (env_of w) f) = 1.
Proof.
  intros Hmax Hgrab Hstamp Hclient Himage Hne Hresp Hloads Hcrisp Htopic Hshort Herr.
  destruct (first_grab_captured Hmax Hgrab) as [Hc Hshots].
  assert (Hparse : parse_response content = PDict d).
  { unfold parse_response. rewrite Hloads.
    unfold REQUIRED_KEYS. cbn [all_keys_in py_contains].
    now rewrite Hcrisp, Htopic, Hshort. }
  destruct (MainMore.wellformed_result_saved MAX_RETRIES (env_of w) f _ 0 d
              crisp topic short Hc) as [Hfinal Hcalls];
    try assumption; try lia.
  - rewrite (first_answer b64 content Hclient Himage Hne Hresp). now rewrite Hparse.
  - split; [|split; [|exact Hcalls]].
    + rewrite Hfinal. unfold appended, save_activity.
      change ("data/screenshots/screenshot_" ++ stamps w 0 ++ ".png" =? "") with false.
      cbv iota. rewrite (shot_basename _ Hstamp). now destruct f.
    + rewrite (MainFacts.run_after_capture MAX_RETRIES (env_of w) _ f Hc).
      cbn [captures]. now rewrite Hshots.
Qed.

(** X15.  A JSON text passes for a result.  When the model answers with
    a JSON string literal that mentions the three key names (and not the
    word [error]), the key test, which is a substring test on text, lets it
    through; the loop ends as on a success, the save step fails on [.get],
    and the iteration writes nothing at all. *)
Theorem text_answer_passes_validation (f : store) (b64 content s : string) :
  (0 < MAX_RETRIES)%Z ->
  grabs w 0 = Returns tt ->
  client w = true ->
  images w 0 = Some b64 ->
  b64 <> "" ->
  responses w 0 = Returns (Some content) ->
  json_loads (clean_fences content) = Some (PStr s) ->
  str_contains "crisp_description" s = true ->
  str_contains "main_topic" s = true ->
  str_contains "short_description" s = true ->
  str_contains "error" s = false ->
  parse_response content = PStr s
  /\ final_file (run_tracker_iteration MAX_RETRIES (env_of w) f) = f
  /\ analyses (run_tracker_iteration MAX_RETRIES (env_of w) f) = 1.
Proof.
  intros Hmax Hgrab Hclient Himage Hne Hresp Hloads Hcrisp Htopic Hshort Herr.
  destruct (first_grab_captured Hmax Hgrab) as [Hc _].
  assert (Hparse : parse_response content = PStr s).
  { unfold parse_response. rewrite Hloads.
    unfold REQUIRED_KEYS. cbn [all_keys_in py_contains].
    now rewrite Hcrisp, Htopic, Hshort. }
  split; [exact Hparse|].
  apply (MainMore.non_dict_result_unsaved MAX_RETRIES (env_of w) f _ 0 (PStr s) Hc).
  - lia.
  - intros j Hj. lia.
  - rewrite (first_answer b64 content Hclient Himage Hne Hresp). now rewrite Hparse.
  - simpl. destruct s; [discriminate | reflexivity].
  - simpl. now rewrite Herr.
  - intros key default. simpl. eauto.
Qed.

(** X16.  An answer with the three keys and an [error] key besides passes
    the validation of [analyze_screenshot] but is taken for an error by
    the loop: unless the value of the key is [JSONDecodeError], the
    iteration records [Analysis Error] at once, with the [raw_content] of
    the answer or else the text [Analysis failed], and the three values
    are not saved. *)
Theorem answer_with_error_key_is_an_error (f : store) (b64 content : string)
    (d : list (string * pyval)) (crisp topic short err : pyval) :
  (0 < MAX_RETRIES)%Z ->
  grabs w 0 = Returns tt ->
  client w = true ->
  images w 0 = Some b64 ->
  b64 <> "" ->
  responses w 0 = Returns (Some content) ->
  json_loads (clean_fences content) = Some (PDict d) ->
  dict_lookup "crisp_description" d = Some crisp ->
  dict_lookup "main_topic" d = Some topic ->
  dict_lookup "short_description" d = Some short ->
  dict_lookup "error" d = Some err ->
  py_eq_str err "JSONDecodeError" = false ->
  parse_response content = PDict d
  /\ final_file (run_tracker_iteration MAX_RETRIES (env_of w) f)
     = save_activity (clock w) (Utils.get_active_window_title (window w))
         (PStr "Analysis Error") (PStr "Error")
         match dict_lookup "raw_content" d with
         | Some raw => raw
         | None => PStr "Analysis failed"
         end
         (Some ("data/screenshots/screenshot_" ++ stamps w 0 ++ ".png")) f
  /\ analyses (run_tracker_iteration MAX_RETRIES (env_of w) f) = 1.
Proof.
  intros Hmax Hgrab Hclient Himage Hne Hresp Hloads Hcrisp Htopic Hshort Herr Hkind.
  destruct (first_grab_captured Hmax Hgrab) as [Hc _].
  assert (Hparse : parse_response content = PDict d).
  { unfold parse_response. rewrite Hloads.
    unfold REQUIRED_KEYS. cbn [all_keys_in py_contains].
    now rewrite Hcrisp, Htopic, Hshort. }
  split; [exact Hparse|].
  apply (MainMore.error_key_recorded MAX_RETRIES (env_of w) f _ 0 d err Hc);
    try assumption; try lia.
  rewrite (first_answer b64 content Hclient Himage Hne Hresp). now rewrite Hparse.
Qed.

End World.
End SystemFacts.

(** ** The dashboard *)

Module AppFacts.
Import DataStorage App.

(** X17.  The dashboard's second conversion is dead code.  The frame
    [load_activity_data] returns is either without rows, and then the
    script stops on [df.empty], or its [Timestamp] column is already a
    column of instants, and then lines 21-23 ([to_datetime] with
    [errors='coerce'] and [dropna]) are skipped: the dashboard goes on
    with the loaded frame as it is, and never with a frame from which the
    rows with a bad timestamp were dropped. *)
Theorem dashboard_never_coerces {P : PandasLib} (file : store) :
  dashboard_frame file
  = match rows (load_activity_data file) with
    | [] => None
    | _ :: _ => Some (load_activity_data file)
    end.
Proof.
  unfold dashboard_frame.
  pose proof (StoreMore.loaded_instants file) as Hinst.
  destruct (StoreMore.load_cases file)
    as [-> | [header [body [i [rs [_ [Hi [_ [_ Hload]]]]]]]]]; [reflexivity|].
  rewrite Hload in *. cbn [rows columns] in *.
  destruct rs as [|row rs]; [reflexivity|].
  unfold frame_empty. cbn [rows columns].
  destruct header as [|name header]; [discriminate|].
  rewrite Hi. specialize (Hinst i Hi).
  unfold is_datetime_column. cbn [rows].
  assert (Hall : forallb (fun r => Log.is_instant (nth i r NaN)) (row :: rs) = true).
  { apply forallb_forall. apply Forall_forall, Hinst. }
  now rewrite Hall.
Qed.

End AppFacts.

(** ** The cost of normalising topics *)

Module TopicCost.
Import TopicNormalizer TopicNormalizerFacts.

Section Normalizer.
Variable client : bool.
Variable remote : nat -> string -> outcome (option string).

Abbreviation normalize_topic := (normalize_topic client remote).
Abbreviation normalize_body := (normalize_body client remote).
Abbreviation run_calls := (run_calls client remote).
Abbreviation proper := (fun t : pyval => negb (degenerate t)).

(** The body asks the model only for a proper topic, and only with a
    client. *)
Lemma body_cost t n :
  snd (normalize_body t n) <= n + (if degenerate t then 0 else 1)
  /\ (client = false -> snd (normalize_body t n) = n).
Proof.
  unfold TopicNormalizer.normalize_body.
  destruct client; simpl.
  - destruct (degenerate t) eqn:Hdeg; simpl; [split; [lia | discriminate]|].
    split; [|discriminate].
    destruct t as [| | |s| |]; simpl; try lia.
    destruct (remote n s) as [[content|]|e]; simpl; lia.
  - split; [lia | reflexivity].
Qed.

Lemma call_cost t st :
  requests st <= requests (snd (normalize_topic t st))
  /\ requests (snd (normalize_topic t st))
     <= requests st + (if degenerate t then 0 else 1)
  /\ (client = false -> requests (snd (normalize_topic t st)) = requests st).
Proof.
  unfold TopicNormalizer.normalize_topic.
  destruct (hashable t); simpl; [|repeat split; lia].
  destruct (cache_find t (cache st)) as [v|]; simpl; [repeat split; lia|].
  pose proof (body_requests client remote t (requests st)) as Hlow.
  pose proof (body_cost t (requests st)) as [Hhigh Hnone].
  destruct (TopicNormalizer.normalize_body client remote t (requests st)) as [v n].
  simpl in *. repeat split; try lia. exact Hnone.
Qed.

(** X18.  What a run of calls costs.  The count of requests never
    goes down, and a run of calls adds at most one request for each call
    whose argument is a non-empty text: a call with [None], an empty
    string, a number, or an unhashable argument never reaches the model.
    Without a client no call does. *)
Theorem requests_bounded_by_proper_calls (topics : list pyval) (st : state) :
  requests st <= requests (run_calls topics st)
  /\ requests (run_calls topics st)
     <= requests st + List.length (filter proper topics)
  /\ (client = false -> requests (run_calls topics st) = requests st).
Proof.
  revert st. induction topics as [|t topics IH]; intros st.
  - simpl. repeat split; lia.
  - cbn [TopicNormalizer.run_calls].
    destruct (call_cost t st) as [Hlow [Hhigh Hnone]].
    destruct (IH (snd (normalize_topic t st))) as [IHlow [IHhigh IHnone]].
    split; [lia | split].
    + cbn [filter]. destruct (degenerate t); cbn [negb List.length]; lia.
    + intros Hclient. rewrite (IHnone Hclient). exact (Hnone Hclient).
Qed.

(** The proper topics among the keys of a cache. *)
Abbreviation proper_keys := (fun c : list (pyval * pyval) => filter proper (map fst c)).

Lemma proper_keys_remove t v c :
  cache_find t c = Some v ->
  List.length (proper_keys c)
  = List.length (proper_keys ((t, v) :: cache_remove t c)).
Proof.
  induction c as [|[k u] c IH]; cbn [cache_find cache_remove]; [discriminate|].
  destruct (key_eqb k t) eqn:Hkt.
  - apply key_eqb_eq in Hkt. subst k. intros _. reflexivity.
  - intros Hfind. specialize (IH Hfind).
    cbn [map fst filter] in *.
    destruct (degenerate k), (degenerate t); cbn [negb List.length] in *; lia.
Qed.

Lemma keys_of_remove t c : incl (map fst (cache_remove t c)) (map fst c).
Proof. apply keys_incl, cache_remove_incl. Qed.

Lemma keys_after_remove t k c :
  In k (map fst c) -> k = t \/ In k (map fst (cache_remove t c)).
Proof.
  induction c as [|[k' v'] c IH]; cbn [map fst cache_remove In]; [tauto|].
  destruct (key_eqb k' t) eqn:Hkt.
  - apply key_eqb_eq in Hkt. subst k'. intros [<- | Hk]; tauto.
  - cbn [map fst In]. tauto.
Qed.

Lemma in_keys_found t c :
  hashable t = true -> In t (map fst c) -> cache_find t c <> None.
Proof.
  intros Hhash Hin Hnone.
  exact (cache_find_none_notin t c Hhash Hnone Hin).
Qed.

(** While the topics called fit in the cache, a call evicts nothing and
    the requests made stay below the proper topics cached. *)
Lemma economy_step (universe : list pyval) t st :
  NoDup universe ->
  List.length universe <= MAXSIZE ->
  (hashable t = true -> In t universe) ->
  NoDup (map fst (cache st)) ->
  incl (map fst (cache st)) universe ->
  requests st <= List.length (proper_keys (cache st)) ->
  incl (map fst (cache (snd (normalize_topic t st)))) universe
  /\ requests (snd (normalize_topic t st))
     <= List.length (proper_keys (cache (snd (normalize_topic t st))))
  /\ incl (map fst (cache st)) (map fst (cache (snd (normalize_topic t st)))).
Proof.
  intros Huniv Hsize Ht Hdistinct Hincl Hreq.
  unfold TopicNormalizer.normalize_topic.
  destruct (hashable t) eqn:Hhash; cbn [negb snd];
    [|split; [assumption | split; [assumption | apply incl_refl]]].
  specialize (Ht eq_refl).
  destruct (cache_find t (cache st)) as [v|] eqn:Hfind.
  - cbn [snd cache requests]. split.
    + intros k [<- | Hk]; [exact Ht|].
      apply Hincl, (keys_of_remove t (cache st)), Hk.
    + pose proof (proper_keys_remove t v (cache st) Hfind) as Hsame.
      cbv beta in Hsame, Hreq. rewrite Hsame in Hreq.
      split; [exact Hreq|].
      intros k Hk. cbn [map fst In].
      destruct (keys_after_remove t k (cache st) Hk) as [-> | Hin]; tauto.
  - pose proof (cache_find_none_notin t (cache st) Hhash Hfind) as Hnotin.
    assert (Hroom : List.length (t :: map fst (cache st)) <= List.length universe).
    { apply NoDup_incl_length.
      - now constructor.
      - intros k [<- | Hk]; [exact Ht | now apply Hincl]. }
    simpl in Hroom. rewrite length_map in Hroom.
    assert (Hkeep : (MAXSIZE <=? List.length (cache st))%nat = false).
    { apply Nat.leb_gt. lia. }
    pose proof (body_cost t (requests st)) as [Hcost _].
    destruct (TopicNormalizer.normalize_body client remote t (requests st)) as [v n].
    rewrite Hkeep. cbn [cache requests snd fst map filter] in *. split.
    + intros k [<- | Hk]; [exact Ht | now apply Hincl].
    + split; [destruct (degenerate t); cbn [negb List.length] in *; lia|].
      intros k Hk. now right.
Qed.

Lemma economy_run (universe : list pyval) topics : forall st,
  NoDup universe ->
  List.length universe <= MAXSIZE ->
  (forall t, In t topics -> hashable t = true -> In t universe) ->
  NoDup (map fst (cache st)) ->
  incl (map fst (cache st)) universe ->
  requests st <= List.length (proper_keys (cache st)) ->
  NoDup (map fst (cache (run_calls topics st)))
  /\ incl (map fst (cache (run_calls topics st))) universe
  /\ requests (run_calls topics st)
     <= List.length (proper_keys (cache (run_calls topics st)))
  /\ (forall k,
        In k (map fst (cache st)) \/ (In k topics /\ hashable k = true) ->
        In k (map fst (cache (run_calls topics st)))).
Proof.
  induction topics as [|t topics IH]; intros st Huniv Hsize Htopics Hdistinct Hincl Hreq.
  - cbn [TopicNormalizer.run_calls].
    repeat (split; [assumption|]). intros k [Hk | [[] _]]. exact Hk.
  - cbn [TopicNormalizer.run_calls].
    destruct (economy_step universe t st Huniv Hsize) as [Hincl' [Hreq' Hkept]];
      try assumption.
    { apply Htopics. now left. }
    destruct (IH (snd (normalize_topic t st))) as [Hd [Hi [Hr Hk]]];
      try assumption.
    { intros k Hk. apply Htopics. now right. }
    { apply distinct_step, Hdistinct. }
    repeat (split; [assumption|]).
    intros k [Hin | [[<- | Hin] Hhash]]; apply Hk.
    + left. now apply Hkept.
    + left. destruct (call_heads_cache client remote t st Hhash) as [v [rest [_ ->]]].
      now left.
    + right. now split.
Qed.

(** X19.  What the cache saves.  When the hashable topics of a run of
    calls, from the start of the process, are among at most 100 distinct
    values, every one of them stays cached and the run makes at most one
    request for each distinct non-empty text, however many calls there
    are and whatever the model answers. *)
Theorem one_request_per_distinct_topic (universe topics : list pyval) :
  NoDup universe ->
  List.length universe <= 100 ->
  (forall t, In t topics -> hashable t = true -> In t universe) ->
  requests (run_calls topics initial) <= List.length (filter proper universe)
  /\ (forall t, In t topics -> hashable t = true ->
        cache_find t (cache (run_calls topics initial)) <> None).
Proof.
  intros Huniv Hsize Htopics.
  destruct (economy_run universe topics initial Huniv Hsize Htopics)
    as [Hdistinct [Hincl [Hreq Hkept]]].
  { constructor. }
  { intros k []. }
  { simpl. lia. }
  split.
  - etransitivity; [exact Hreq|].
    apply NoDup_incl_length.
    + apply NoDup_filter, Hdistinct.
    + intros k Hk. apply filter_In in Hk as [Hk Hproper].
      apply filter_In. split; [now apply Hincl | exact Hproper].
  - intros t Ht Hhash. apply in_keys_found; [exact Hhash|].
    apply Hkept. right. now split.
Qed.

End Normalizer.
End TopicCost.

(** ** Scenarios *)

Module Scenarios.
Import DataStorage Main ImageAnalysis Reference Examples MoreExamples.

Lemma retries_are_bounded_witness :
  captures (Main.run_tracker_iteration 3 (platform capture_down api_down) None) <= 3
  /\ analyses (Main.run_tracker_iteration 3 (platform capture_down api_down) None) = 0.
Proof.
  destruct (MainMore.retries_are_bounded 3 (platform capture_down api_down) None)
    as [Hcaptures [_ [Hnone _]]].
  split; [exact Hcaptures | apply Hnone; reflexivity].
Defined.

Lemma capture_stops_at_first_success_witness :
  captures (Main.run_tracker_iteration 3 (platform capture_second_try api_down) None) = 2.
Proof.
  destruct (MainMore.capture_stops_at_first_success 3
              (platform capture_second_try api_down) None 1 shot_path) as [_ Hcalls].
  - reflexivity.
  - intros [|j] Hj; [reflexivity | lia].
  - reflexivity.
  - discriminate.
  - exact Hcalls.
Defined.


Lemma headerless_file_hides_records_witness :
  load_activity_data (P := pandas) (Log.save_all [edit_record; mail_record] (Some []))
  = empty_frame.
Proof.
  destruct (StoreMore.headerless_file_hides_records (P := pandas) edit_record
              [mail_record]) as [_ Hload].
  - simpl. intuition discriminate.
  - exact Hload.
Defined.

Lemma scalar_answer_is_hard_failure_witness :
  parse_response (J := json) "42" = PNone.
Proof.
  destruct (ImageMore.scalar_answer_is_hard_failure (J := json) "42" (PInt 42) eq_refl)
    as [Hscalar _].
  exact (Hscalar eq_refl).
Defined.

Lemma fenced_answers_classified_as_bare_witness :
  same_classification
    (parse_response (J := json) ("```" ++ (LF ++ good_json ++ LF) ++ "```"))
    (parse_response (J := json) (LF ++ good_json ++ LF)).
Proof.
  destruct (ImageMore.fenced_answers_classified_as_bare (J := json)
              (LF ++ good_json ++ LF)) as [_ Hplain].
  - vm_compute. reflexivity.
  - vm_compute. reflexivity.
  - vm_compute. reflexivity.
  - exact Hplain.
Defined.

Lemma saved_screenshot_is_found_witness :
  App.screenshot_to_show (P := pandas) (na_filter (basename shot_path))
  = Some shot_path.
Proof.
  destruct (SystemFacts.saved_screenshot_is_found (P := pandas) "20240305_120059"
              shot_path) as [_ [_ Hshow]].
  - reflexivity.
  - reflexivity.
  - exact Hshow.
Defined.

Lemma answer_is_saved_verbatim_witness :
  final_file (Main.run_tracker_iteration 3
                (System.env_of (J := json) (session good_json)) None)
  = Some [COLUMNS; good_line].
Proof.
  destruct (SystemFacts.answer_is_saved_verbatim (J := json) (P := pandas) 3
              (session good_json) None "iVBORw0KGgo=" good_json good_members
              (PStr "Editing a proof script") (PStr "Proof engineering")
              (PStr "Editing")) as [Happended _].
  1-12: first [reflexivity | discriminate].
  exact Happended.
Defined.

Lemma text_answer_passes_validation_witness :
  parse_response (J := json) quoted_json
  = PStr "crisp_description, main_topic and short_description are missing"
  /\ final_file (Main.run_tracker_iteration 3
                   (System.env_of (J := json) (session quoted_json)) None)
     = None.
Proof.
  destruct (SystemFacts.text_answer_passes_validation (J := json) (P := pandas) 3
              (session quoted_json) None "iVBORw0KGgo=" quoted_json
              "crisp_description, main_topic and short_description are missing")
    as [Hparse [Hfile _]].
  1-11: first [reflexivity | discriminate].
  split; [exact Hparse | exact Hfile].
Defined.

Lemma answer_with_error_key_is_an_error_witness :
  final_file (Main.run_tracker_iteration 3
                (System.env_of (J := json) (session flagged_json)) None)
  = Some [COLUMNS;
          ["2024-03-05 12:00:59"; "Editor"; "Analysis Error"; "Error";
           "Analysis failed"; "screenshot_20240305_120059.png"]].
Proof.
  destruct (SystemFacts.answer_with_error_key_is_an_error (J := json) (P := pandas) 3
              (session flagged_json) None "iVBORw0KGgo=" flagged_json flagged_members
              (PStr "Editing a proof script") (PStr "Proof engineering")
              (PStr "Editing") (PStr "low confidence")) as [_ [Hfile _]].
  1-12: first [reflexivity | discriminate].
  exact Hfile.
Defined.

Lemma one_request_per_distinct_topic_witness :
  TopicNormalizer.requests
    (TopicNormalizer.run_calls true remote_titles day_topics TopicNormalizer.initial)
  <= 2.
Proof.
  destruct (TopicCost.one_request_per_distinct_topic true remote_titles
              [PStr "vs code"; PNone; PStr "python programming"] day_topics)
    as [Hrequests _].
  - repeat constructor; simpl; intuition discriminate.
  - simpl. lia.
  - simpl. intuition.
  - exact Hrequests.
Defined.

End Scenarios.
